(** * Capybara Timer: the [useTimer] hook

    A shallow embedding of [hooks/useTimer.ts], the session timer of the
    application, together with the properties of its state machine.

    Modelling conventions.
    - A JavaScript [number] holding a count of seconds, loops or coins is an
      integer of [Z]; [Math.floor (a / b)] for a positive [b] is [Z.div] and
      the remainder operator [%] is [Z.rem] (sign of the dividend).
    - The string-literal unions [TimerPhase] and [TimerState] are inductive
      types.  Both unions contain the literal ['completed']; the run state is
      written [state_completed] here.
    - [setSession (prev => next)] is the function [prev |-> next] on
      [TimerSession].  The hook's [settings] argument is fixed for the
      lifetime of a session, so it is a [Section] variable.
    - [tick] hands the phase change to [setTimeout (moveToNextPhase, 0)].  The
      updater of [tick] is [tickUpdate], which returns the session together
      with a flag telling whether the timeout was armed; [tick] is the
      updater followed by the deferred call, taken as one step.  The callback
      is invoked without arguments, so [isSkipped] takes its default
      [false]. *)

From Stdlib Require Import ZArith List String Ascii Bool Lia.
From Stdlib Require Import Decimal DecimalString DecimalZ.
Import ListNotations.

Local Open Scope Z_scope.

(** ** Data model *)

Inductive TimerPhase : Type := prep | focus | break | completed.

Inductive TimerState : Type := idle | running | paused | state_completed.

Record TimerSettings : Type := mkSettings {
  focusDuration : Z;   (* in seconds (minimum 30) *)
  breakDuration : Z;   (* in seconds (can be 0) *)
  loops : Z;           (* 1-9 loops *)
  hasPrep : bool;      (* 5-minute prep session *)
  countUp : bool       (* true = count up, false = count down *)
}.

Record TimerSession : Type := mkSession {
  phase : TimerPhase;
  state : TimerState;
  currentLoop : Z;
  totalLoops : Z;
  timeElapsed : Z;        (* seconds elapsed in current phase *)
  timeRemaining : Z;      (* seconds remaining in current phase *)
  totalSessionTime : Z;   (* total time for current phase *)
  coinsEarned : Z;        (* coins earned so far *)
  completedFocusTime : Z  (* total completed focus time in seconds *)
}.

Definition PREP_DURATION : Z := 5 * 60.

Definition TimerPhase_eqb (a b : TimerPhase) : bool :=
  match a, b with
  | prep, prep | focus, focus | break, break | completed, completed => true
  | _, _ => false
  end.

Definition TimerState_eqb (a b : TimerState) : bool :=
  match a, b with
  | idle, idle | running, running | paused, paused
  | state_completed, state_completed => true
  | _, _ => false
  end.

(** ** The hook *)

Section UseTimer.

Variable settings : TimerSettings.

(** The argument of [useState], which is also what [resetTimer] stores. *)
Definition initialSession : TimerSession :=
  {| phase := if hasPrep settings then prep else focus;
     state := idle;
     currentLoop := 1;
     totalLoops := loops settings;
     timeElapsed := 0;
     timeRemaining :=
       if hasPrep settings then PREP_DURATION else focusDuration settings;
     totalSessionTime :=
       if hasPrep settings then PREP_DURATION else focusDuration settings;
     coinsEarned := 0;
     completedFocusTime := 0 |}.

Definition getTotalDuration : Z :=
  let prepTime := if hasPrep settings then PREP_DURATION else 0 in
  let cycleTime :=
    (focusDuration settings + breakDuration settings) * loops settings in
  prepTime + cycleTime.

Definition getCurrentPhaseDuration (p : TimerPhase) : Z :=
  match p with
  | prep => PREP_DURATION
  | focus => focusDuration settings
  | break => breakDuration settings
  | completed => 0
  end.

Definition getDisplayTime (session : TimerSession) : Z :=
  if countUp settings then timeElapsed session else timeRemaining session.

Definition moveToNextPhase (isSkipped : bool) (prev : TimerSession)
  : TimerSession :=
  let nextLoop := currentLoop prev in
  let coinsToAdd := 0 in
  let completedFocusTime' := completedFocusTime prev in
  (* coin calculation *)
  let '(coinsToAdd, completedFocusTime') :=
    if TimerPhase_eqb (phase prev) focus && negb isSkipped then
      let actualFocusTime := timeElapsed prev in
      let focusMinutesCompleted := actualFocusTime / 30 in
      (focusMinutesCompleted, completedFocusTime' + actualFocusTime)
    else if TimerPhase_eqb (phase prev) focus && isSkipped then
      (0, completedFocusTime' + timeElapsed prev)
    else
      (coinsToAdd, completedFocusTime') in
  (* phase transition *)
  let '(nextPhase, nextLoop) :=
    if TimerPhase_eqb (phase prev) prep then
      (focus, nextLoop)
    else if TimerPhase_eqb (phase prev) focus then
      if breakDuration settings >? 0 then
        (break, nextLoop)
      else
        let nextLoop := nextLoop + 1 in
        if nextLoop <=? loops settings then (focus, nextLoop)
        else (completed, nextLoop)
    else if TimerPhase_eqb (phase prev) break then
      let nextLoop := nextLoop + 1 in
      if nextLoop <=? loops settings then (focus, nextLoop)
      else (completed, nextLoop)
    else
      (completed, nextLoop) in
  let phaseDuration := getCurrentPhaseDuration nextPhase in
  {| phase := nextPhase;
     state :=
       if TimerPhase_eqb nextPhase completed then state_completed
       else state prev;
     currentLoop := nextLoop;
     totalLoops := totalLoops prev;
     timeElapsed := 0;
     timeRemaining := phaseDuration;
     totalSessionTime := phaseDuration;
     coinsEarned := coinsEarned prev + coinsToAdd;
     completedFocusTime := completedFocusTime' |}.

(** The updater of [tick]; the flag is [true] when it armed
    [setTimeout (moveToNextPhase, 0)]. *)
Definition tickUpdate (prev : TimerSession) : TimerSession * bool :=
  if negb (TimerState_eqb (state prev) running)
     || TimerPhase_eqb (phase prev) completed
  then (prev, false)
  else
    let newTimeElapsed := timeElapsed prev + 1 in
    let newTimeRemaining := timeRemaining prev - 1 in
    if newTimeRemaining <=? 0 then (prev, true)
    else
      ({| phase := phase prev;
          state := state prev;
          currentLoop := currentLoop prev;
          totalLoops := totalLoops prev;
          timeElapsed := newTimeElapsed;
          timeRemaining := newTimeRemaining;
          totalSessionTime := totalSessionTime prev;
          coinsEarned := coinsEarned prev;
          completedFocusTime := completedFocusTime prev |}, false).

Definition tick (prev : TimerSession) : TimerSession :=
  let '(next, armed) := tickUpdate prev in
  if armed then moveToNextPhase false next else next.

Definition startTimer (prev : TimerSession) : TimerSession :=
  {| phase := phase prev;
     state := running;
     currentLoop := currentLoop prev;
     totalLoops := totalLoops prev;
     timeElapsed := timeElapsed prev;
     timeRemaining := timeRemaining prev;
     totalSessionTime := totalSessionTime prev;
     coinsEarned := coinsEarned prev;
     completedFocusTime := completedFocusTime prev |}.

Definition pauseTimer (prev : TimerSession) : TimerSession :=
  {| phase := phase prev;
     state := paused;
     currentLoop := currentLoop prev;
     totalLoops := totalLoops prev;
     timeElapsed := timeElapsed prev;
     timeRemaining := timeRemaining prev;
     totalSessionTime := totalSessionTime prev;
     coinsEarned := coinsEarned prev;
     completedFocusTime := completedFocusTime prev |}.

Definition resetTimer (_ : TimerSession) : TimerSession := initialSession.

Definition skipPhase (prev : TimerSession) : TimerSession :=
  moveToNextPhase true prev.

(** *** Commands and runs *)

Inductive Command : Type := Start | Pause | Reset | Skip | Tick.

Definition step (s : TimerSession) (c : Command) : TimerSession :=
  match c with
  | Start => startTimer s
  | Pause => pauseTimer s
  | Reset => resetTimer s
  | Skip => skipPhase s
  | Tick => tick s
  end.

Definition run (cs : list Command) (s : TimerSession) : TimerSession :=
  fold_left step cs s.

Inductive reachable : TimerSession -> Prop :=
| reachable_init : reachable initialSession
| reachable_step s c : reachable s -> reachable (step s c).

End UseTimer.

(** Construction.  The body of [useTimer] validates nothing and contains no
    [throw]: whatever the settings, it stores the initial session.  The
    outcome type keeps an alternative for a rejected configuration so that
    "construction fails" can be stated about it. *)
Inductive Construction : Type :=
| Engine (session : TimerSession)
| ConfigurationError.

Definition useTimer (settings : TimerSettings) : Construction :=
  Engine (initialSession settings).

(** ** [formatTime] *)

(** [Number.prototype.toString] on an integer: its decimal numeral, with a
    leading minus sign when negative. *)
Definition Number_toString (n : Z) : string :=
  NilZero.string_of_int (Z.to_int n).

(** The filler of [String.prototype.padStart]: [padString] repeated and cut
    to [fillLen] characters; [rest] is what is left of the current copy. *)
Fixpoint filler (fillLen : nat) (padString rest : string) : string :=
  match fillLen with
  | O => EmptyString
  | S k =>
      match rest with
      | String c rest' => String c (filler k padString rest')
      | EmptyString =>
          match padString with
          | String c rest' => String c (filler k padString rest')
          | EmptyString => EmptyString
          end
      end
  end.

Definition padStart (targetLength : nat) (padString str : string) : string :=
  if (targetLength <=? String.length str)%nat then str
  else
    (filler (targetLength - String.length str) padString padString ++ str)%string.

Definition formatTime (seconds : Z) : string :=
  let minutes := seconds / 60 in
  let remainingSeconds := Z.rem seconds 60 in
  (padStart 2 "0" (Number_toString minutes) ++ ":"
   ++ padStart 2 "0" (Number_toString remainingSeconds))%string.

(** ** The specification's vocabulary *)

(** Stated from the specification: the duration table of the phases. *)
Definition phaseDuration (settings : TimerSettings) (p : TimerPhase) : Z :=
  match p with
  | prep => 300
  | focus => focusDuration settings
  | break => breakDuration settings
  | completed => 0
  end.

(** Stated from the specification: the phase column of the transition table.
    A row applies only under its condition; where no row applies the table
    gives nothing. *)
Definition transitionTable (settings : TimerSettings)
    (from : TimerPhase) (loop : Z) : option TimerPhase :=
  match from with
  | prep => Some focus
  | focus =>
      if 0 <? breakDuration settings then Some break
      else if (breakDuration settings =? 0) && (loop <? loops settings)
      then Some focus
      else if (breakDuration settings =? 0) && (loop =? loops settings)
      then Some completed
      else None
  | break =>
      if loop <? loops settings then Some focus
      else if loop =? loops settings then Some completed
      else None
  | completed => None
  end.

(** Stated from the specification: the same table read as a function, the
    rows of a phase tried from top to bottom and the last of them taken when
    no earlier one applies. *)
Definition tableNextPhase (settings : TimerSettings)
    (from : TimerPhase) (loop : Z) : TimerPhase :=
  match from with
  | prep => focus
  | focus =>
      if 0 <? breakDuration settings then break
      else if loop <? loops settings then focus
      else completed
  | break => if loop <? loops settings then focus else completed
  | completed => completed
  end.

(** Stated from the specification: two decimal digits at least, padded with
    a zero on the left. *)
Definition pad2 (n : Z) : string :=
  if n <? 10 then String "0" (Number_toString n) else Number_toString n.

(** ** Configurations of the test suite and of the scenarios *)

Definition defaultSettings : TimerSettings :=
  {| focusDuration := 60; breakDuration := 30; loops := 2;
     hasPrep := false; countUp := false |}.

Definition settingsWithPrep : TimerSettings :=
  {| focusDuration := 60; breakDuration := 30; loops := 2;
     hasPrep := true; countUp := false |}.

Definition longFocusSettings : TimerSettings :=
  {| focusDuration := 150; breakDuration := 30; loops := 2;
     hasPrep := false; countUp := false |}.

Definition shortSettings : TimerSettings :=
  {| focusDuration := 1; breakDuration := 1; loops := 1;
     hasPrep := false; countUp := false |}.

Definition singleLoopSettings : TimerSettings :=
  {| focusDuration := 60; breakDuration := 30; loops := 1;
     hasPrep := false; countUp := false |}.

(** Scenario E: one loop of 150 seconds of focus and no break. *)
Definition scenarioE : TimerSettings :=
  {| focusDuration := 150; breakDuration := 0; loops := 1;
     hasPrep := false; countUp := false |}.

(** [start ()] followed by [n] ticks. *)
Definition startThenTicks (n : nat) : list Command := Start :: repeat Tick n.

(** ** Sessions left running *)

(** The session [prev] after [k] further seconds inside its phase: what [k]
    successive counting ticks store. *)
Definition advance (k : Z) (prev : TimerSession) : TimerSession :=
  {| phase := phase prev;
     state := state prev;
     currentLoop := currentLoop prev;
     totalLoops := totalLoops prev;
     timeElapsed := timeElapsed prev + k;
     timeRemaining := timeRemaining prev - k;
     totalSessionTime := totalSessionTime prev;
     coinsEarned := coinsEarned prev;
     completedFocusTime := completedFocusTime prev |}.

(** A running session at the first second of phase [p] in loop [l], holding
    [c] coins and [f] seconds of completed focus time. *)
Definition atPhaseStart (settings : TimerSettings) (p : TimerPhase)
    (l c f : Z) : TimerSession :=
  {| phase := p;
     state := running;
     currentLoop := l;
     totalLoops := loops settings;
     timeElapsed := 0;
     timeRemaining := getCurrentPhaseDuration settings p;
     totalSessionTime := getCurrentPhaseDuration settings p;
     coinsEarned := c;
     completedFocusTime := f |}.

(** The session once completed in loop [l], holding [c] coins and [f]
    seconds of completed focus time. *)
Definition atCompletion (settings : TimerSettings) (l c f : Z)
  : TimerSession :=
  {| phase := completed;
     state := state_completed;
     currentLoop := l;
     totalLoops := loops settings;
     timeElapsed := 0;
     timeRemaining := 0;
     totalSessionTime := 0;
     coinsEarned := c;
     completedFocusTime := f |}.

(** ** Ticks and their deferred transitions *)

(** The hook between its callbacks: the session, and the number of
    [setTimeout (moveToNextPhase, 0)] callbacks that ticks have armed and
    that have not run yet.  Nothing ever cancels such a callback. *)
Record TimerHook : Type := {
  session : TimerSession;
  armed : nat
}.

(** What can happen to the hook: a button handler runs, the interval calls
    [tick], an armed timeout runs [moveToNextPhase ()]. *)
Inductive HookEvent : Type :=
| PressStart
| PressPause
| PressReset
| PressSkip
| IntervalFires
| TimeoutFires.

Definition handle (settings : TimerSettings) (h : TimerHook) (e : HookEvent)
  : TimerHook :=
  match e with
  | PressStart => {| session := startTimer (session h); armed := armed h |}
  | PressPause => {| session := pauseTimer (session h); armed := armed h |}
  | PressReset =>
      {| session := resetTimer settings (session h); armed := armed h |}
  | PressSkip =>
      {| session := skipPhase settings (session h); armed := armed h |}
  | IntervalFires =>
      let '(next, arms) := tickUpdate (session h) in
      {| session := next; armed := if arms then S (armed h) else armed h |}
  | TimeoutFires =>
      match armed h with
      | O => h
      | S pending =>
          {| session := moveToNextPhase settings false (session h);
             armed := pending |}
      end
  end.

Definition handleAll (settings : TimerSettings) (es : list HookEvent)
    (h : TimerHook) : TimerHook :=
  fold_left (handle settings) es h.

(** ** The time picker *)

(** [updateTime] of [components/TimePicker]: the minutes and seconds that it
    stores and hands to [onTimeChange]. *)
Definition updateTime (minimumSeconds minutes seconds : Z) : Z * Z :=
  let totalSeconds := minutes * 60 + seconds in
  if totalSeconds <? minimumSeconds then
    let minMinutes := minimumSeconds / 60 in
    let minSeconds := Z.rem minimumSeconds 60 in
    (minMinutes, minSeconds)
  else
    (minutes, seconds).

(** The picker's state is the pair [(selectedMinutes, selectedSeconds)]. *)
Definition handleMinutesChange (minimumSeconds : Z) (selected : Z * Z)
    (minutes : Z) : Z * Z :=
  updateTime minimumSeconds minutes (snd selected).

Definition handleSecondsChange (minimumSeconds : Z) (selected : Z * Z)
    (seconds : Z) : Z * Z :=
  updateTime minimumSeconds (fst selected) seconds.

(** The values offered by the two columns of the picker. *)
Definition minuteChoices (selected : Z * Z) : list Z :=
  filter (fun val => (0 <=? val) && (val <=? 60))
    [fst selected - 1; fst selected; fst selected + 1].

Definition secondChoices (selected : Z * Z) : list Z :=
  filter (fun val => (0 <=? val) && (val <? 60))
    [snd selected - 15; snd selected; snd selected + 15].

(** ** The settings screens *)

(** [updateSetting (key, value)] of [components/TimerSettings] and
    [screens/TimerSetupScreen]: a key together with a value of its type. *)
Inductive SettingUpdate : Type :=
| set_focusDuration (value : Z)
| set_breakDuration (value : Z)
| set_loops (value : Z)
| set_hasPrep (value : bool)
| set_countUp (value : bool).

Definition updateSetting (settings : TimerSettings) (u : SettingUpdate)
  : TimerSettings :=
  match u with
  | set_focusDuration value =>
      {| focusDuration := value;
         breakDuration := breakDuration settings;
         loops := loops settings;
         hasPrep := hasPrep settings;
         countUp := countUp settings |}
  | set_breakDuration value =>
      {| focusDuration := focusDuration settings;
         breakDuration := value;
         loops := loops settings;
         hasPrep := hasPrep settings;
         countUp := countUp settings |}
  | set_loops value =>
      {| focusDuration := focusDuration settings;
         breakDuration := breakDuration settings;
         loops := value;
         hasPrep := hasPrep settings;
         countUp := countUp settings |}
  | set_hasPrep value =>
      {| focusDuration := focusDuration settings;
         breakDuration := breakDuration settings;
         loops := loops settings;
         hasPrep := value;
         countUp := countUp settings |}
  | set_countUp value =>
      {| focusDuration := focusDuration settings;
         breakDuration := breakDuration settings;
         loops := loops settings;
         hasPrep := hasPrep settings;
         countUp := value |}
  end.

(** What the user can do on a settings screen: move a slider to [value],
    press the loop button labelled [num], flip a toggle. *)
Inductive SettingsEvent : Type :=
| FocusSlider (value : Z)
| BreakSlider (value : Z)
| LoopButton (num : Z)
| PrepToggle (enabled : bool)
| CountUpToggle (enabled : bool).

(** The handlers wired to the controls. *)
Definition onSettingsEvent (settings : TimerSettings) (e : SettingsEvent)
  : TimerSettings :=
  match e with
  | FocusSlider value =>
      updateSetting settings (set_focusDuration (Z.max 30 value))
  | BreakSlider value => updateSetting settings (set_breakDuration value)
  | LoopButton num => updateSetting settings (set_loops num)
  | PrepToggle enabled => updateSetting settings (set_hasPrep enabled)
  | CountUpToggle enabled => updateSetting settings (set_countUp enabled)
  end.

(** What the controls can deliver: the break slider runs from 0 to one hour
    and [components/TimerSettings] renders the loop buttons 1 to 9
    ([screens/TimerSetupScreen] only 1 to 5).  The focus slider is not
    trusted: its handler clamps. *)
Definition rendered (e : SettingsEvent) : Prop :=
  match e with
  | BreakSlider value => 0 <= value <= 60 * 60
  | LoopButton num => In num [1; 2; 3; 4; 5; 6; 7; 8; 9]
  | _ => True
  end.

(** The settings that [HomeScreen] starts from. *)
Definition homeScreenSettings : TimerSettings :=
  {| focusDuration := 25 * 60; breakDuration := 5 * 60; loops := 4;
     hasPrep := false; countUp := false |}.

(** ** Arrays of strings *)

(** [Array.prototype.includes] on an array of strings. *)
Definition includes (arr : list string) (x : string) : bool :=
  existsb (String.eqb x) arr.

(** ** Capybara animation sets *)

Module CapybaraAnimations.

(** The fields that the functions below read; the image sources, sizes,
    offsets and scales of a set are left out. *)
Record CapybaraAnimationSet : Type := {
  id : string;
  name : string;
  description : string;
  unlockCost : Z;
  isUnlocked : bool
}.

Definition CAPYBARA_ANIMATION_SETS : list CapybaraAnimationSet :=
  [ {| id := "basic-capy"; name := "Basic Capy";
       description := "Your loyal and chill first companion.";
       unlockCost := 0; isUnlocked := true |};
    {| id := "fighting-capy"; name := "Fighting Capy";
       description := "A determined capybara ready to tackle any challenge.";
       unlockCost := 100; isUnlocked := false |};
    {| id := "egg-capy"; name := "Egg Capy";
       description := "A mysterious capybara, perhaps still hatching ideas.";
       unlockCost := 250; isUnlocked := false |};
    {| id := "toilet-capy"; name := "Toilet Capy";
       description :=
         "A capybara who finds peace in the most unexpected places.";
       unlockCost := 500; isUnlocked := false |} ].

Definition getCapybaraById (i : string) : option CapybaraAnimationSet :=
  find (fun capy => String.eqb (id capy) i) CAPYBARA_ANIMATION_SETS.

Definition getUnlockedCapybaras : list CapybaraAnimationSet :=
  filter (fun capy => isUnlocked capy) CAPYBARA_ANIMATION_SETS.

Definition getLockedCapybaras : list CapybaraAnimationSet :=
  filter (fun capy => negb (isUnlocked capy)) CAPYBARA_ANIMATION_SETS.

Definition canUnlockCapybara (i : string) (currentCoins : Z) : bool :=
  match getCapybaraById i with
  | Some capy => negb (isUnlocked capy) && (currentCoins >=? unlockCost capy)
  | None => false
  end.

End CapybaraAnimations.

(** ** The [useCapybaraAnimations] hook *)

Module UseCapybaraAnimations.

Inductive BodyAnimationType : Type := body_idle | dance.

Inductive HeadExpressionType : Type := neutral | happy.

(** The four state cells of the hook.  Each call below acts on the state of
    the render that it was taken from. *)
Record HookState : Type := {
  unlockedCapybaras : list string;
  selectedCapybaraId : string;
  currentBodyAnimation : BodyAnimationType;
  currentHeadExpression : HeadExpressionType
}.

Definition initialState : HookState :=
  {| unlockedCapybaras := ["basic-capy"%string];
     selectedCapybaraId := "basic-capy";
     currentBodyAnimation := body_idle;
     currentHeadExpression := neutral |}.

(** The new state and the returned boolean. *)
Definition unlockCapybara (capybaraId : string) (currentCoins : Z)
    (st : HookState) : HookState * bool :=
  match CapybaraAnimations.getCapybaraById capybaraId with
  | None => (st, false)
  | Some capybara =>
      if includes (unlockedCapybaras st) capybaraId then (st, true)
      else if negb (CapybaraAnimations.canUnlockCapybara capybaraId
                      currentCoins)
      then (st, false)
      else
        ({| unlockedCapybaras := unlockedCapybaras st ++ [capybaraId];
            selectedCapybaraId := selectedCapybaraId st;
            currentBodyAnimation := currentBodyAnimation st;
            currentHeadExpression := currentHeadExpression st |}, true)
  end.

Definition selectCapybara (capybaraId : string) (st : HookState)
  : HookState * bool :=
  if negb (includes (unlockedCapybaras st) capybaraId) then (st, false)
  else
    ({| unlockedCapybaras := unlockedCapybaras st;
        selectedCapybaraId := capybaraId;
        currentBodyAnimation := currentBodyAnimation st;
        currentHeadExpression := currentHeadExpression st |}, true).

Definition getSelectedCapybara (st : HookState)
  : option CapybaraAnimations.CapybaraAnimationSet :=
  CapybaraAnimations.getCapybaraById (selectedCapybaraId st).

Definition getUnlockedCapybaraList (st : HookState)
  : list CapybaraAnimations.CapybaraAnimationSet :=
  filter
    (fun capy => includes (unlockedCapybaras st) (CapybaraAnimations.id capy))
    CapybaraAnimations.CAPYBARA_ANIMATION_SETS.

Definition getLockedCapybaraList (st : HookState)
  : list CapybaraAnimations.CapybaraAnimationSet :=
  filter
    (fun capy =>
       negb (includes (unlockedCapybaras st) (CapybaraAnimations.id capy)))
    CapybaraAnimations.CAPYBARA_ANIMATION_SETS.

Definition isCapybaraUnlocked (capybaraId : string) (st : HookState) : bool :=
  includes (unlockedCapybaras st) capybaraId.

(** The calls that change what is unlocked or selected. *)
Inductive Call : Type :=
| Unlock (capybaraId : string) (currentCoins : Z)
| Select (capybaraId : string).

(** The same callbacks as created by the render that saw [seen], run while
    the state is [st]: the [includes] guards read the list that the render
    captured, the updates apply to the state at hand. *)
Definition unlockCapybaraFrom (seen : HookState) (capybaraId : string)
    (currentCoins : Z) (st : HookState) : HookState * bool :=
  match CapybaraAnimations.getCapybaraById capybaraId with
  | None => (st, false)
  | Some capybara =>
      if includes (unlockedCapybaras seen) capybaraId then (st, true)
      else if negb (CapybaraAnimations.canUnlockCapybara capybaraId
                      currentCoins)
      then (st, false)
      else
        ({| unlockedCapybaras := unlockedCapybaras st ++ [capybaraId];
            selectedCapybaraId := selectedCapybaraId st;
            currentBodyAnimation := currentBodyAnimation st;
            currentHeadExpression := currentHeadExpression st |}, true)
  end.

Definition selectCapybaraFrom (seen : HookState) (capybaraId : string)
    (st : HookState) : HookState * bool :=
  if negb (includes (unlockedCapybaras seen) capybaraId) then (st, false)
  else
    ({| unlockedCapybaras := unlockedCapybaras st;
        selectedCapybaraId := capybaraId;
        currentBodyAnimation := currentBodyAnimation st;
        currentHeadExpression := currentHeadExpression st |}, true).

Definition callFrom (seen st : HookState) (c : Call) : HookState :=
  match c with
  | Unlock capybaraId currentCoins =>
      fst (unlockCapybaraFrom seen capybaraId currentCoins st)
  | Select capybaraId => fst (selectCapybaraFrom seen capybaraId st)
  end.

(** A run of calls.  [states] lists the states so far, oldest first, and
    each call comes with the position in that list of the state whose render
    created its callback (the state at hand when there is no such
    position); so two calls may come from one render, and a callback may be
    older than the state it runs on. *)
Fixpoint runCalls (states : list HookState) (st : HookState)
    (calls : list (nat * Call)) : HookState :=
  match calls with
  | [] => st
  | (k, c) :: rest =>
      let st' := callFrom (nth k states st) st c in
      runCalls (states ++ [st']) st' rest
  end.

End UseCapybaraAnimations.

(** ** Companions *)

Module Companions.

Record Assets : Type := {
  idle : string;
  working : string;
  celebrating : string;
  locked : option string
}.

(** The [personality] of a companion is read by no function and is left
    out. *)
Record Companion : Type := {
  id : string;
  name : string;
  description : string;
  unlockCost : Z;
  isUnlocked : bool;
  assets : Assets
}.

Definition COMPANIONS : list Companion :=
  [ {| id := "basic-capy"; name := "Basic Capy";
       description := "Your loyal study companion";
       unlockCost := 0; isUnlocked := true;
       assets := {| idle := "basic-capy-idle.gif";
                    working := "basic-capy-working.gif";
                    celebrating := "basic-capy-celebrating.gif";
                    locked := None |} |};
    {| id := "fighting-capy"; name := "Fighting Capy";
       description := "Ready to battle procrastination!";
       unlockCost := 500; isUnlocked := false;
       assets := {| idle := "fighting-capy-idle.gif";
                    working := "fighting-capy-working.gif";
                    celebrating := "fighting-capy-celebrating.gif";
                    locked := Some "fighting-capy-locked.png"%string |} |};
    {| id := "egg-capy"; name := "Egg Capy";
       description := "Cozy and warm focus buddy";
       unlockCost := 1000; isUnlocked := false;
       assets := {| idle := "egg-capy-idle.gif";
                    working := "egg-capy-working.gif";
                    celebrating := "egg-capy-celebrating.gif";
                    locked := Some "egg-capy-locked.png"%string |} |};
    {| id := "toilet-capy"; name := "Toilet Capy";
       description := "For those bathroom break sessions";
       unlockCost := 2500; isUnlocked := false;
       assets := {| idle := "toilet-capy-idle.gif";
                    working := "toilet-capy-working.gif";
                    celebrating := "toilet-capy-celebrating.gif";
                    locked := Some "toilet-capy-locked.png"%string |} |} ].

Definition getCompanionById (i : string) : option Companion :=
  find (fun companion => String.eqb (id companion) i) COMPANIONS.

Definition getUnlockedCompanions (unlockedIds : list string)
  : list Companion :=
  filter
    (fun companion =>
       (unlockCost companion =? 0) || includes unlockedIds (id companion))
    COMPANIONS.

Definition getLockedCompanions (unlockedIds : list string) : list Companion :=
  filter
    (fun companion =>
       (unlockCost companion >? 0)
       && negb (includes unlockedIds (id companion)))
    COMPANIONS.

Definition canUnlockCompanion (companion : Companion) (currentCoins : Z)
  : bool :=
  currentCoins >=? unlockCost companion.

(** 1 coin per minute of focus time. *)
Definition calculateCoinsEarned (focusTimeInSeconds : Z) : Z :=
  focusTimeInSeconds / 60.

Definition getCompanionAnimation (companion : Companion)
    (timerState : TimerState) (timerPhase : TimerPhase) : string :=
  if TimerState_eqb timerState state_completed
     || TimerPhase_eqb timerPhase completed
  then celebrating (assets companion)
  else if TimerState_eqb timerState running
          && (TimerPhase_eqb timerPhase focus
              || TimerPhase_eqb timerPhase prep)
  then working (assets companion)
  else idle (assets companion).

End Companions.

(** ** Strings of category names *)

(** Names are taken to be strings of ASCII characters; on these
    [String.prototype.trim] removes the blanks, tabs and line breaks at both
    ends and [String.prototype.toLowerCase] maps the letters A to Z. *)
Definition isWhiteSpace (c : ascii) : bool :=
  let n := nat_of_ascii c in
  (n =? 32)%nat || ((9 <=? n)%nat && (n <=? 13)%nat).

Fixpoint trimStart (s : string) : string :=
  match s with
  | EmptyString => EmptyString
  | String c s' => if isWhiteSpace c then trimStart s' else s
  end.

Fixpoint trimEnd (s : string) : string :=
  match s with
  | EmptyString => EmptyString
  | String c s' =>
      match trimEnd s' with
      | EmptyString =>
          if isWhiteSpace c then EmptyString else String c EmptyString
      | String c' t => String c (String c' t)
      end
  end.

Definition trim (s : string) : string := trimEnd (trimStart s).

Definition toLowerChar (c : ascii) : ascii :=
  let n := nat_of_ascii c in
  if (65 <=? n)%nat && (n <=? 90)%nat then ascii_of_nat (n + 32) else c.

Fixpoint toLowerCase (s : string) : string :=
  match s with
  | EmptyString => EmptyString
  | String c s' => String (toLowerChar c) (toLowerCase s')
  end.

(** [arr[i]] for an integer [i]: [undefined], here [None], outside the
    array. *)
Definition Array_at {A : Type} (arr : list A) (i : Z) : option A :=
  if i <? 0 then None else nth_error arr (Z.to_nat i).

(** ** Categories *)

Module Categories.

(** [createdAt] is a time stamp in milliseconds; [color] is [None] when the
    colour table was read outside its bounds. *)
Record Category : Type := {
  id : string;
  name : string;
  color : option string;
  createdAt : Z;
  sessionCount : Z
}.

Definition CATEGORY_COLORS : list string :=
  [ "#4CAF50"; "#FF6B6B"; "#FFD93D"; "#6C5CE7"; "#74B9FF";
    "#A0A0A0" ]%string.

(** Identifier, name and colour of the pre-installed categories. *)
Definition DEFAULT_CATEGORIES : list (string * string * string) :=
  [ ("study", "study", "#4CAF50");
    ("work", "work", "#FF6B6B");
    ("personal", "personal", "#FFD93D");
    ("creative", "creative", "#6C5CE7");
    ("learning", "learning", "#74B9FF");
    ("other", "other", "#A0A0A0") ]%string.

End Categories.

(** ** The [useCategories] hook *)

Module UseCategories.

Import Categories.

(** The state cells [categories] and [selectedCategoryId]; storage is not
    modelled.  A call acts on the state of the render it was taken from. *)
Record HookState : Type := {
  categories : list Category;
  selectedCategoryId : string
}.

(** What [loadCategories] installs when nothing is stored, at time [now]. *)
Definition defaultCategories (now : Z) : list Category :=
  map (fun cat : string * string * string =>
         let '(i, n, c) := cat in
         {| id := i; name := n; color := Some c;
            createdAt := now; sessionCount := 0 |})
    DEFAULT_CATEGORIES.

Definition loadedState (now : Z) : HookState :=
  {| categories := defaultCategories now; selectedCategoryId := "study" |}.

(** [createCategory]: [idClock] is the value of [Date.now ()] and
    [createdClock] the time of [new Date ()].  Returns the new state and the
    new category. *)
Definition createCategory (idClock createdClock : Z) (newName : string)
    (colorIndex : Z) (st : HookState) : HookState * Category :=
  let newCategory :=
    {| id := ("custom_" ++ Number_toString idClock)%string;
       name := toLowerCase (trim newName);
       color :=
         Array_at CATEGORY_COLORS
           (Z.rem colorIndex (Z.of_nat (List.length CATEGORY_COLORS)));
       createdAt := createdClock;
       sessionCount := 0 |} in
  ({| categories := categories st ++ [newCategory];
      selectedCategoryId := selectedCategoryId st |}, newCategory).

(** [Partial<Category>]: the fields that an update carries. *)
Record CategoryUpdates : Type := {
  new_id : option string;
  new_name : option string;
  new_color : option (option string);
  new_createdAt : option Z;
  new_sessionCount : option Z
}.

Definition withDefault {A : Type} (o : option A) (d : A) : A :=
  match o with Some a => a | None => d end.

(** [{ ...cat, ...updates }]. *)
Definition applyUpdates (cat : Category) (updates : CategoryUpdates)
  : Category :=
  {| id := withDefault (new_id updates) (id cat);
     name := withDefault (new_name updates) (name cat);
     color := withDefault (new_color updates) (color cat);
     createdAt := withDefault (new_createdAt updates) (createdAt cat);
     sessionCount :=
       withDefault (new_sessionCount updates) (sessionCount cat) |}.

Definition updateCategory (categoryId : string) (updates : CategoryUpdates)
    (st : HookState) : HookState :=
  {| categories :=
       map (fun cat =>
              if String.eqb (id cat) categoryId then applyUpdates cat updates
              else cat)
         (categories st);
     selectedCategoryId := selectedCategoryId st |}.

(** [deleteCategory] as created by the render that saw [seen], run while
    the state is [st]: the two guards read [categories.length] and
    [selectedCategoryId] as that render captured them, the filter applies to
    the state at hand. *)
Definition deleteCategoryFrom (seen : HookState) (categoryId : string)
    (st : HookState) : HookState * bool :=
  if (List.length (categories seen) <=? 1)%nat then (st, false)
  else if String.eqb (selectedCategoryId seen) categoryId then (st, false)
  else
    ({| categories :=
          filter (fun cat => negb (String.eqb (id cat) categoryId))
            (categories st);
        selectedCategoryId := selectedCategoryId st |}, true).

Definition deleteCategory (categoryId : string) (st : HookState)
  : HookState * bool :=
  deleteCategoryFrom st categoryId st.

(** [selectCategory] as created by the render that saw [seen], applied to
    the state [st]: the lookup goes through the categories of that
    render. *)
Definition selectCategoryFrom (seen : HookState) (categoryId : string)
    (st : HookState) : HookState * bool :=
  match find (fun cat => String.eqb (id cat) categoryId) (categories seen) with
  | Some category =>
      ({| categories := categories st; selectedCategoryId := categoryId |},
       true)
  | None => (st, false)
  end.

Definition selectCategory (categoryId : string) (st : HookState)
  : HookState * bool :=
  selectCategoryFrom st categoryId st.

Definition getSelectedCategory (st : HookState) : option Category :=
  find (fun cat => String.eqb (id cat) (selectedCategoryId st))
    (categories st).

Definition getCategoryById (i : string) (st : HookState) : option Category :=
  find (fun cat => String.eqb (id cat) i) (categories st).

Definition incrementSessionCount (categoryId : string) (st : HookState)
  : HookState :=
  {| categories :=
       map (fun cat =>
              if String.eqb (id cat) categoryId
              then {| id := id cat; name := name cat; color := color cat;
                      createdAt := createdAt cat;
                      sessionCount := sessionCount cat + 1 |}
              else cat)
         (categories st);
     selectedCategoryId := selectedCategoryId st |}.

Definition getAvailableColors (st : HookState) : list string :=
  let usedColors := map color (categories st) in
  filter
    (fun c =>
       negb (existsb
               (fun used =>
                  match used with
                  | Some u => String.eqb u c
                  | None => false
                  end)
               usedColors))
    CATEGORY_COLORS.

Record Validation : Type := {
  isValid : bool;
  error : option string
}.

Definition validateCategoryName (newName : string) (st : HookState)
  : Validation :=
  let trimmedName := toLowerCase (trim newName) in
  if (String.length trimmedName =? 0)%nat then
    {| isValid := false; error := Some "Category name cannot be empty"%string |}
  else if (20 <? String.length trimmedName)%nat then
    {| isValid := false;
       error := Some "Category name must be 20 characters or less"%string |}
  else
    let exists_ :=
      existsb (fun cat => String.eqb (toLowerCase (name cat)) trimmedName)
        (categories st) in
    if exists_ then
      {| isValid := false;
         error := Some "Category name already exists"%string |}
    else {| isValid := true; error := None |}.

(** [handleCreateCategory] of [components/CategoryModal]: validation, then
    [createCategory], then [handleCategorySelect] on the identifier of the
    new category.  All three callbacks come from the render that saw [st];
    [createCategory] queues its update, so [selectCategory] still looks the
    identifier up in the categories of [st]. *)
Definition handleCreateCategory (idClock createdClock : Z)
    (newCategoryName : string) (selectedColorIndex : Z) (st : HookState)
  : HookState :=
  let validation := validateCategoryName newCategoryName st in
  if negb (isValid validation) then st
  else
    let '(created, newCategory) :=
      createCategory idClock createdClock newCategoryName selectedColorIndex
        st in
    fst (selectCategoryFrom st (id newCategory) created).

(** [handleCreateCategory] as created by the render that saw [seen], run
    while the state is [st]. *)
Definition handleCreateCategoryFrom (seen : HookState)
    (idClock createdClock : Z) (newCategoryName : string)
    (selectedColorIndex : Z) (st : HookState) : HookState :=
  let validation := validateCategoryName newCategoryName seen in
  if negb (isValid validation) then st
  else
    let '(created, newCategory) :=
      createCategory idClock createdClock newCategoryName selectedColorIndex
        st in
    fst (selectCategoryFrom seen (id newCategory) created).

(** The calls that change the state of the hook. *)
Inductive Call : Type :=
| Create (idClock createdClock : Z) (newName : string) (colorIndex : Z)
| Update (categoryId : string) (updates : CategoryUpdates)
| Delete (categoryId : string)
| Select (categoryId : string)
| Increment (categoryId : string)
| ModalCreate (idClock createdClock : Z) (newCategoryName : string)
    (selectedColorIndex : Z).

(** A call whose callback was created by the render that saw [seen], run
    while the state is [st].  Creations, updates and increments read nothing
    from their render. *)
Definition callFrom (seen st : HookState) (c : Call) : HookState :=
  match c with
  | Create idClock createdClock newName colorIndex =>
      fst (createCategory idClock createdClock newName colorIndex st)
  | Update categoryId updates => updateCategory categoryId updates st
  | Delete categoryId => fst (deleteCategoryFrom seen categoryId st)
  | Select categoryId => fst (selectCategoryFrom seen categoryId st)
  | Increment categoryId => incrementSessionCount categoryId st
  | ModalCreate idClock createdClock newCategoryName selectedColorIndex =>
      handleCreateCategoryFrom seen idClock createdClock newCategoryName
        selectedColorIndex st
  end.

(** A run of calls; as for the capybaras, [states] lists the states so far,
    oldest first, and each call names the position of the state whose render
    created its callback. *)
Fixpoint runCalls (states : list HookState) (st : HookState)
    (calls : list (nat * Call)) : HookState :=
  match calls with
  | [] => st
  | (k, c) :: rest =>
      let st' := callFrom (nth k states st) st c in
      runCalls (states ++ [st']) st' rest
  end.

(** The render of a call is up to date for what the call reads: a deletion
    comes from a render that saw the selection as it is now, and a selection
    names an identifier that is still there if its render saw it. *)
Definition upToDate (seen st : HookState) (c : Call) : Prop :=
  match c with
  | Delete _ => selectedCategoryId seen = selectedCategoryId st
  | Select categoryId =>
      find (fun cat => String.eqb (id cat) categoryId) (categories seen)
      <> None ->
      find (fun cat => String.eqb (id cat) categoryId) (categories st)
      <> None
  | _ => True
  end.

(** An update that leaves identifiers alone. *)
Definition keepsId (c : Call) : Prop :=
  match c with
  | Update _ updates => new_id updates = None
  | _ => True
  end.

(** Every call of the run leaves identifiers alone and comes from a render
    that is up to date for it. *)
Fixpoint timely (states : list HookState) (st : HookState)
    (calls : list (nat * Call)) : Prop :=
  match calls with
  | [] => True
  | (k, c) :: rest =>
      keepsId c
      /\ upToDate (nth k states st) st c
      /\ let st' := callFrom (nth k states st) st c in
         timely (states ++ [st']) st' rest
  end.

(** The selected identifier names a category of the list. *)
Definition selectionExists (st : HookState) : Prop :=
  existsb (fun cat => String.eqb (id cat) (selectedCategoryId st))
    (categories st) = true.

(** The lower-case names of the categories, as [validateCategoryName]
    compares them. *)
Definition lowerNames (st : HookState) : list string :=
  map (fun cat => toLowerCase (name cat)) (categories st).

End UseCategories.

(** * Properties *)

(** ** Case analysis on the updaters *)

Lemma TimerPhase_eqb_eq (a b : TimerPhase) :
  TimerPhase_eqb a b = true <-> a = b.
Proof. destruct a, b; simpl; split; intro H; congruence. Qed.

Lemma TimerState_eqb_eq (a b : TimerState) :
  TimerState_eqb a b = true <-> a = b.
Proof. destruct a, b; simpl; split; intro H; congruence. Qed.

(** Splits every conditional of the goal, keeping the tests as arithmetic
    facts. *)
Ltac split_tests :=
  repeat match goal with
    | |- context [if ?c then _ else _] =>
        let E := fresh "E" in destruct c eqn:E; simpl
    end;
  repeat match goal with
    | H : (_ >? _) = _ |- _ => rewrite Z.gtb_ltb in H
    | H : (_ <=? _) = true |- _ => apply Z.leb_le in H
    | H : (_ <=? _) = false |- _ => apply Z.leb_gt in H
    | H : (_ <? _) = true |- _ => apply Z.ltb_lt in H
    | H : (_ <? _) = false |- _ => apply Z.ltb_ge in H
    | H : (_ =? _) = true |- _ => apply Z.eqb_eq in H
    | H : (_ =? _) = false |- _ => apply Z.eqb_neq in H
    end.

(** Opens [moveToNextPhase] by the phase of the session and the skip flag. *)
Ltac open_transition s isSkipped :=
  unfold skipPhase, moveToNextPhase; rewrite ?Z.gtb_ltb;
  destruct (phase s) eqn:?, isSkipped; simpl; split_tests.

Section Transition.

Variable settings : TimerSettings.

Lemma phaseDuration_getCurrentPhaseDuration (p : TimerPhase) :
  phaseDuration settings p = getCurrentPhaseDuration settings p.
Proof. destruct p; reflexivity. Qed.

Lemma moveToNextPhase_timeElapsed isSkipped s :
  timeElapsed (moveToNextPhase settings isSkipped s) = 0.
Proof. open_transition s isSkipped; reflexivity. Qed.

Lemma moveToNextPhase_timeRemaining isSkipped s :
  timeRemaining (moveToNextPhase settings isSkipped s)
  = getCurrentPhaseDuration settings
      (phase (moveToNextPhase settings isSkipped s)).
Proof. open_transition s isSkipped; reflexivity. Qed.

Lemma moveToNextPhase_coinsEarned isSkipped s :
  coinsEarned (moveToNextPhase settings isSkipped s)
  = coinsEarned s
    + match phase s, isSkipped with
      | focus, false => timeElapsed s / 30
      | _, _ => 0
      end.
Proof. open_transition s isSkipped; reflexivity. Qed.

Lemma moveToNextPhase_completedFocusTime isSkipped s :
  completedFocusTime (moveToNextPhase settings isSkipped s)
  = match phase s with
    | focus => completedFocusTime s + timeElapsed s
    | _ => completedFocusTime s
    end.
Proof. open_transition s isSkipped; reflexivity. Qed.

Lemma moveToNextPhase_state isSkipped s :
  state (moveToNextPhase settings isSkipped s)
  = match phase (moveToNextPhase settings isSkipped s) with
    | completed => state_completed
    | _ => state s
    end.
Proof. open_transition s isSkipped; reflexivity. Qed.

Lemma moveToNextPhase_phase isSkipped s :
  phase (moveToNextPhase settings isSkipped s)
  = match phase s with
    | prep => focus
    | focus =>
        if 0 <? breakDuration settings then break
        else if currentLoop s + 1 <=? loops settings then focus
             else completed
    | break =>
        if currentLoop s + 1 <=? loops settings then focus else completed
    | completed => completed
    end.
Proof.
  open_transition s isSkipped; reflexivity || lia.
Qed.

Lemma moveToNextPhase_currentLoop isSkipped s :
  currentLoop (moveToNextPhase settings isSkipped s)
  = match phase s with
    | prep | completed => currentLoop s
    | focus =>
        if 0 <? breakDuration settings then currentLoop s
        else currentLoop s + 1
    | break => currentLoop s + 1
    end.
Proof.
  open_transition s isSkipped; reflexivity || lia.
Qed.

(** [tick] by cases: idle, the last second of a phase, any other second. *)
Lemma tick_cases s :
  (tick settings s = s
   /\ (state s <> running \/ phase s = completed))
  \/ (tick settings s = moveToNextPhase settings false s
      /\ state s = running /\ phase s <> completed
      /\ timeRemaining s - 1 <= 0)
  \/ (state s = running /\ phase s <> completed
      /\ 0 < timeRemaining s - 1
      /\ phase (tick settings s) = phase s
      /\ state (tick settings s) = state s
      /\ currentLoop (tick settings s) = currentLoop s
      /\ timeElapsed (tick settings s) = timeElapsed s + 1
      /\ timeRemaining (tick settings s) = timeRemaining s - 1
      /\ coinsEarned (tick settings s) = coinsEarned s
      /\ completedFocusTime (tick settings s) = completedFocusTime s).
Proof.
  unfold tick, tickUpdate.
  destruct (TimerState_eqb (state s) running) eqn:Hst; simpl.
  - apply TimerState_eqb_eq in Hst.
    destruct (TimerPhase_eqb (phase s) completed) eqn:Hph.
    + apply TimerPhase_eqb_eq in Hph. left; auto.
    + assert (phase s <> completed)
        by (intro Hc; apply TimerPhase_eqb_eq in Hc; congruence).
      destruct (timeRemaining s - 1 <=? 0) eqn:Hr.
      * apply Z.leb_le in Hr. right; left; auto.
      * apply Z.leb_gt in Hr. right; right; simpl. repeat split; auto.
  - left. split; [reflexivity|]. left. intro Hc.
    apply TimerState_eqb_eq in Hc. congruence.
Qed.

(** A run from a reachable session stays among the reachable sessions. *)
Lemma reachable_run cs : forall s,
  reachable settings s -> reachable settings (run settings cs s).
Proof.
  induction cs as [|c cs IH]; intros s Hs; simpl; [assumption|].
  apply IH. now apply reachable_step.
Qed.

Lemma reachable_from_init cs :
  reachable settings (run settings cs (initialSession settings)).
Proof. apply reachable_run, reachable_init. Qed.

(** Elapsed time is never negative. *)
Lemma timeElapsed_nonneg s : reachable settings s -> 0 <= timeElapsed s.
Proof.
  induction 1 as [|s c Hs IH]; [simpl; lia|].
  destruct c; simpl; try assumption.
  - simpl; lia.
  - unfold skipPhase. rewrite moveToNextPhase_timeElapsed. lia.
  - destruct (tick_cases s) as [[-> _]|[[-> _]|H]].
    + assumption.
    + rewrite moveToNextPhase_timeElapsed. lia.
    + destruct H as (_ & _ & _ & _ & _ & _ & -> & _). lia.
Qed.

End Transition.

(** ** The test suite on the embedding *)

(** "should countdown correctly when running": five ticks into the first
    focus phase. *)
Example countdown_five_seconds :
  let s := run defaultSettings (startThenTicks 5)
             (initialSession defaultSettings) in
  timeElapsed s = 5 /\ timeRemaining s = 55 /\ state s = running.
Proof. vm_compute. repeat split. Qed.

(** "should not countdown when paused": ticks are ignored while paused. *)
Example paused_session_ignores_ticks :
  let s := run defaultSettings
             (startThenTicks 3 ++ Pause :: repeat Tick 5)
             (initialSession defaultSettings) in
  timeElapsed s = 3 /\ timeRemaining s = 57 /\ state s = paused.
Proof. vm_compute. repeat split. Qed.

(** "should transition from focus to break" and "from break to next focus
    loop". *)
Example focus_break_focus :
  let s60 := run defaultSettings (startThenTicks 60)
               (initialSession defaultSettings) in
  let s90 := run defaultSettings (startThenTicks 90)
               (initialSession defaultSettings) in
  (phase s60 = break /\ timeRemaining s60 = 30 /\ currentLoop s60 = 1)
  /\ (phase s90 = focus /\ timeRemaining s90 = 60 /\ currentLoop s90 = 2).
Proof. vm_compute. repeat split. Qed.

(** "should handle prep phase correctly". *)
Example prep_then_focus :
  let s := run settingsWithPrep (startThenTicks 300)
             (initialSession settingsWithPrep) in
  phase s = focus /\ timeRemaining s = 60 /\ coinsEarned s = 0.
Proof. vm_compute. repeat split. Qed.

(** "should skip phase without awarding coins": thirty seconds into focus,
    then [skipPhase ()]. *)
Example skip_after_thirty_seconds :
  let s := run defaultSettings (startThenTicks 30 ++ [Skip])
             (initialSession defaultSettings) in
  phase s = break /\ coinsEarned s = 0 /\ completedFocusTime s = 30.
Proof. vm_compute. repeat split. Qed.

(** "should award partial coins for partial focus time": a focus phase of
    150 seconds, ended by its 150th tick, is recorded as 149 seconds. *)
Example long_focus_phase :
  let s := run longFocusSettings (startThenTicks 150)
             (initialSession longFocusSettings) in
  phase s = break /\ coinsEarned s = 4 /\ completedFocusTime s = 149.
Proof. vm_compute. repeat split. Qed.

(** ** Scenario E and the last second of a phase *)

(** The tick that ends a focus phase pays for the seconds recorded before
    it: the updater of [tick] returns [prev] untouched when it arms the
    timeout, so [moveToNextPhase] reads a [timeElapsed] that lacks the final
    second. *)
Lemma tick_last_second settings s :
  state s = running -> phase s = focus -> timeRemaining s = 1 ->
  coinsEarned (tick settings s) = coinsEarned s + timeElapsed s / 30
  /\ completedFocusTime (tick settings s)
     = completedFocusTime s + timeElapsed s.
Proof.
  intros Hst Hph Hrem.
  destruct (tick_cases settings s) as [[_ [H|H]]|[[-> _]|H]].
  - congruence.
  - congruence.
  - rewrite moveToNextPhase_coinsEarned, moveToNextPhase_completedFocusTime.
    rewrite Hph. split; reflexivity.
  - lia.
Qed.

(** C1. With the configuration of scenario E (150 seconds of focus, no
    break, one loop, no preparation), [start ()] and 150 ticks end the
    session in phase Completed with 4 coins and 149 seconds of completed
    focus time, where the scenario announces 5 coins and 150 seconds: the
    150th tick hands over an elapsed time of 149. *)
Theorem scenarioE_after_150_ticks :
  let s := run scenarioE (startThenTicks 150) (initialSession scenarioE) in
  phase s = completed
  /\ coinsEarned s = 4
  /\ completedFocusTime s = 149
  /\ coinsEarned s <> 150 / 30
  /\ completedFocusTime s <> 150.
Proof. vm_compute. repeat split; discriminate. Qed.

(** ** Construction *)

(** C2, as stated, fails on the settings of the "very short durations"
    test: the focus duration is 1, yet an engine is produced. *)
Lemma useTimer_accepts_short_focus :
  ~ (useTimer shortSettings = ConfigurationError
     <-> (focusDuration shortSettings < 30
          \/ breakDuration shortSettings < 0
          \/ ~ (1 <= loops shortSettings <= 9))).
Proof.
  intros [_ H].
  assert (Hbad : useTimer shortSettings = ConfigurationError)
    by (apply H; left; simpl; lia).
  discriminate Hbad.
Qed.

(** C2, amended.  Construction never fails: for every configuration, valid
    or not, [useTimer] produces the engine holding the initial session, which
    is idle, in its first loop, with zeroed counters, in the preparation
    phase with 300 seconds remaining when preparation is enabled and in the
    focus phase with the focus duration remaining otherwise. *)
Theorem useTimer_total (settings : TimerSettings) :
  useTimer settings <> ConfigurationError
  /\ exists s,
       useTimer settings = Engine s
       /\ state s = idle
       /\ currentLoop s = 1
       /\ timeElapsed s = 0
       /\ coinsEarned s = 0
       /\ completedFocusTime s = 0
       /\ phase s = (if hasPrep settings then prep else focus)
       /\ timeRemaining s
          = (if hasPrep settings then 300 else focusDuration settings).
Proof.
  split; [discriminate|].
  exists (initialSession settings). repeat split.
Qed.

(** ** Phase and run state *)

Lemma state_completed_phase settings s :
  reachable settings s -> state s = state_completed -> phase s = completed.
Proof.
  induction 1 as [|s c Hs IH]; [discriminate|].
  destruct c; simpl; try discriminate.
  - unfold skipPhase. rewrite moveToNextPhase_state.
    destruct (phase (moveToNextPhase settings true s)) eqn:Hnext;
      try reflexivity; intro Hst; apply IH in Hst;
      rewrite moveToNextPhase_phase, Hst in Hnext; discriminate.
  - destruct (tick_cases settings s) as [[-> _]|[[-> _]|H]].
    + assumption.
    + rewrite moveToNextPhase_state.
      destruct (phase (moveToNextPhase settings false s)) eqn:Hnext;
        try reflexivity; intro Hst; apply IH in Hst;
        rewrite moveToNextPhase_phase, Hst in Hnext; discriminate.
    + destruct H as (Hrun & _ & _ & _ & Hst & _). rewrite Hst, Hrun.
      discriminate.
Qed.

(** C3, as stated, fails after [start ()] on a completed session: the
    phase stays Completed and the run state becomes Running. *)
Lemma completed_session_restarted :
  let s := run scenarioE (startThenTicks 150 ++ [Start])
             (initialSession scenarioE) in
  reachable scenarioE s
  /\ ~ (phase s = completed <-> state s = state_completed).
Proof.
  split; [apply reachable_from_init|].
  vm_compute. intros [H _]. specialize (H eq_refl). discriminate H.
Qed.

(** C3, amended.  In every reachable state, run state Completed implies
    phase Completed; and right after every phase transition, natural or
    skipped, the phase is Completed exactly when the run state is.  (The
    converse implication is lost once [start ()] or [pause ()] is applied to
    a completed session.) *)
Theorem completed_state_implies_completed_phase settings s :
  reachable settings s ->
  (state s = state_completed -> phase s = completed)
  /\ forall isSkipped,
       phase (moveToNextPhase settings isSkipped s) = completed
       <-> state (moveToNextPhase settings isSkipped s) = state_completed.
Proof.
  intro Hs. split; [now apply (state_completed_phase settings)|].
  intro isSkipped. rewrite moveToNextPhase_state. split.
  - intros ->. reflexivity.
  - destruct (phase (moveToNextPhase settings isSkipped s)) eqn:Hnext;
      try reflexivity; intro Hst; apply (state_completed_phase _ _ Hs) in Hst;
      rewrite moveToNextPhase_phase, Hst in Hnext; discriminate.
Qed.

Lemma completed_state_implies_completed_phase_witness :
  let s := run scenarioE (startThenTicks 150) (initialSession scenarioE) in
  reachable scenarioE s
  /\ ((state s = state_completed -> phase s = completed)
      /\ forall isSkipped,
           phase (moveToNextPhase scenarioE isSkipped s) = completed
           <-> state (moveToNextPhase scenarioE isSkipped s)
               = state_completed).
Proof.
  split.
  - apply reachable_from_init.
  - apply (completed_state_implies_completed_phase scenarioE).
    apply reachable_from_init.
Defined.

(** ** The loop counter *)

(** C4. With one loop of 60 seconds of focus and 30 seconds of break (the
    settings of the "single loop" test), [start ()] and 90 ticks complete
    the session with [currentLoop] equal to 2 while [loops] is 1: the
    counter is incremented before it is compared with [loops], and the
    incremented value is stored even when the session completes. *)
Theorem singleLoop_currentLoop_exceeds_loops :
  let s := run singleLoopSettings (startThenTicks 90)
             (initialSession singleLoopSettings) in
  reachable singleLoopSettings s
  /\ phase s = completed
  /\ currentLoop s = 2
  /\ loops singleLoopSettings = 1
  /\ ~ (currentLoop s <= loops singleLoopSettings).
Proof.
  split; [apply reachable_from_init|].
  vm_compute. repeat split; try discriminate. intro H. apply H. reflexivity.
Qed.

(** Apart from [resetTimer], no command lowers the loop counter. *)
Lemma currentLoop_step_monotone settings s c :
  c <> Reset -> currentLoop s <= currentLoop (step settings s c).
Proof.
  intro Hc. destruct c; simpl; try lia.
  - congruence.
  - unfold skipPhase. rewrite moveToNextPhase_currentLoop.
    destruct (phase s); split_tests; lia.
  - destruct (tick_cases settings s) as [[-> _]|[[-> _]|H]].
    + lia.
    + rewrite moveToNextPhase_currentLoop.
      destruct (phase s); split_tests; lia.
    + destruct H as (_ & _ & _ & _ & _ & -> & _). lia.
Qed.

(** What the code does keep: before completion the counter stays within
    [loops], and on completion it is one past it. *)
Lemma currentLoop_bound settings s :
  1 <= loops settings -> reachable settings s ->
  1 <= currentLoop s
  /\ (phase s <> completed -> currentLoop s <= loops settings)
  /\ (phase s = completed -> currentLoop s = loops settings + 1).
Proof.
  intros Hl. induction 1 as [|s c Hs IH].
  - simpl. repeat split; try lia. destruct (hasPrep settings); discriminate.
  - destruct IH as (IH1 & IH2 & IH3).
    assert (Hmove : forall b,
      1 <= currentLoop (moveToNextPhase settings b s)
      /\ (phase (moveToNextPhase settings b s) <> completed ->
          currentLoop (moveToNextPhase settings b s) <= loops settings)
      /\ (phase (moveToNextPhase settings b s) = completed ->
          currentLoop (moveToNextPhase settings b s) = loops settings + 1)).
    { intro b.
      rewrite moveToNextPhase_currentLoop, moveToNextPhase_phase.
      destruct (phase s) eqn:Hp; split_tests;
        repeat split; intros; try congruence; try lia;
        try (assert (currentLoop s <= loops settings)
               by (apply IH2; discriminate); lia);
        try (apply IH3; reflexivity). }
    destruct c; simpl.
    + repeat split; assumption.
    + repeat split; assumption.
    + repeat split; try lia. destruct (hasPrep settings); discriminate.
    + apply Hmove.
    + destruct (tick_cases settings s) as [[-> _]|[[-> _]|H]].
      * repeat split; assumption.
      * apply Hmove.
      * destruct H as (_ & _ & _ & -> & _ & -> & _). repeat split; assumption.
Qed.

(** ** [startTimer] and [pauseTimer] *)

(** C5, as stated, fails on a completed session: [start ()] makes it
    Running instead of leaving it unchanged. *)
Lemma startTimer_changes_completed_session :
  let s := run scenarioE (startThenTicks 150) (initialSession scenarioE) in
  reachable scenarioE s
  /\ state s = state_completed
  /\ startTimer s <> s.
Proof.
  split; [apply reachable_from_init|].
  vm_compute. split; [reflexivity|discriminate].
Qed.

(** C5, amended.  For every state, [start ()] sets the run state to
    Running, also when it was Completed; the state as a whole is unchanged
    exactly when it was already Running; and phase, elapsed and remaining
    time, loop counter, coins and completed focus time are never altered. *)
Theorem startTimer_effect (s : TimerSession) :
  state (startTimer s) = running
  /\ (startTimer s = s <-> state s = running)
  /\ phase (startTimer s) = phase s
  /\ timeElapsed (startTimer s) = timeElapsed s
  /\ timeRemaining (startTimer s) = timeRemaining s
  /\ currentLoop (startTimer s) = currentLoop s
  /\ coinsEarned (startTimer s) = coinsEarned s
  /\ completedFocusTime (startTimer s) = completedFocusTime s.
Proof.
  repeat split; destruct s as [p st l tl e r t c f]; simpl in *.
  - intro H. injection H as H. symmetry. exact H.
  - intros ->. reflexivity.
Qed.

(** C6, as stated, fails on a freshly constructed session: it is Idle, not
    Running, and [pause ()] makes it Paused. *)
Lemma pauseTimer_changes_idle_session :
  let s := initialSession defaultSettings in
  state s <> running /\ pauseTimer s <> s.
Proof. vm_compute. split; discriminate. Qed.

(** C6, amended.  For every state, [pause ()] sets the run state to Paused,
    whatever it was; the state as a whole is unchanged exactly when it was
    already Paused; and phase, elapsed and remaining time, loop counter,
    coins and completed focus time are never altered. *)
Theorem pauseTimer_effect (s : TimerSession) :
  state (pauseTimer s) = paused
  /\ (pauseTimer s = s <-> state s = paused)
  /\ phase (pauseTimer s) = phase s
  /\ timeElapsed (pauseTimer s) = timeElapsed s
  /\ timeRemaining (pauseTimer s) = timeRemaining s
  /\ currentLoop (pauseTimer s) = currentLoop s
  /\ coinsEarned (pauseTimer s) = coinsEarned s
  /\ completedFocusTime (pauseTimer s) = completedFocusTime s.
Proof.
  repeat split; destruct s as [p st l tl e r t c f]; simpl in *.
  - intro H. injection H as H. symmetry. exact H.
  - intros ->. reflexivity.
Qed.

(** ** Elapsed and remaining time *)

(** C7. In every reachable state, each command taken as one step, elapsed
    plus remaining time equals the duration of the current phase: 300 for
    Preparation, the focus duration for Focus, the break duration for Break
    and 0 for Completed. *)
Theorem elapsed_plus_remaining settings s :
  reachable settings s ->
  timeElapsed s + timeRemaining s = phaseDuration settings (phase s).
Proof.
  assert (Hmove : forall b s0,
    timeElapsed (moveToNextPhase settings b s0)
    + timeRemaining (moveToNextPhase settings b s0)
    = phaseDuration settings (phase (moveToNextPhase settings b s0))).
  { intros b s0.
    rewrite moveToNextPhase_timeElapsed, moveToNextPhase_timeRemaining.
    rewrite Z.add_0_l. symmetry. apply phaseDuration_getCurrentPhaseDuration. }
  induction 1 as [|s c Hs IH].
  - simpl. destruct (hasPrep settings); reflexivity.
  - destruct c; simpl; try assumption.
    + destruct (hasPrep settings); reflexivity.
    + apply Hmove.
    + destruct (tick_cases settings s) as [[-> _]|[[-> _]|H]].
      * assumption.
      * apply Hmove.
      * destruct H as (_ & _ & _ & -> & _ & _ & -> & -> & _). lia.
Qed.

Lemma elapsed_plus_remaining_witness :
  let s := run settingsWithPrep (startThenTicks 310 ++ [Pause; Skip])
             (initialSession settingsWithPrep) in
  reachable settingsWithPrep s
  /\ timeElapsed s + timeRemaining s = phaseDuration settingsWithPrep (phase s).
Proof.
  split.
  - apply reachable_from_init.
  - apply (elapsed_plus_remaining settingsWithPrep).
    apply reachable_from_init.
Defined.

(** ** Coins *)

(** C8, as stated, fails for [reset ()]: after one completed focus phase
    the session holds a coin, and resetting brings the count back to 0. *)
Lemma resetTimer_lowers_coinsEarned :
  let s := run defaultSettings (startThenTicks 60)
             (initialSession defaultSettings) in
  reachable defaultSettings s
  /\ coinsEarned (step defaultSettings s Reset) < coinsEarned s.
Proof.
  split; [apply reachable_from_init|]. vm_compute. reflexivity.
Qed.

Lemma coinsEarned_step settings s c :
  reachable settings s -> c <> Reset ->
  coinsEarned s <= coinsEarned (step settings s c).
Proof.
  intros Hs Hc. pose proof (timeElapsed_nonneg settings s Hs) as He.
  assert (Hmove : forall b,
    coinsEarned s <= coinsEarned (moveToNextPhase settings b s)).
  { intro b. rewrite moveToNextPhase_coinsEarned.
    destruct (phase s), b; try lia.
    assert (0 <= timeElapsed s / 30) by (apply Z.div_pos; lia). lia. }
  destruct c; simpl; try lia.
  - congruence.
  - apply Hmove.
  - destruct (tick_cases settings s) as [[-> _]|[[-> _]|H]].
    + lia.
    + apply Hmove.
    + destruct H as (_ & _ & _ & _ & _ & _ & _ & _ & -> & _). lia.
Qed.

(** C8, amended.  From every reachable state, each of [start ()],
    [pause ()], [skipPhase ()] and [tick ()] leaves [coinsEarned] at least as
    large as it was, and so does every sequence of these commands;
    [reset ()] starts a new session with [coinsEarned] equal to 0. *)
Theorem coinsEarned_monotone settings s :
  reachable settings s ->
  (forall c, c <> Reset -> coinsEarned s <= coinsEarned (step settings s c))
  /\ (forall cs, ~ In Reset cs ->
        coinsEarned s <= coinsEarned (run settings cs s))
  /\ coinsEarned (step settings s Reset) = 0.
Proof.
  intro Hs. split; [|split].
  - intros c Hc. now apply coinsEarned_step.
  - intro cs. revert s Hs.
    induction cs as [|c cs IH]; intros s Hs Hin; simpl; [lia|].
    assert (Hc : c <> Reset) by (intro Heq; apply Hin; left; auto).
    assert (Hcs : ~ In Reset cs) by (intro Hcs; apply Hin; right; auto).
    pose proof (coinsEarned_step settings s c Hs Hc).
    pose proof (IH (step settings s c) (reachable_step _ _ _ Hs) Hcs).
    lia.
  - reflexivity.
Qed.

Lemma coinsEarned_monotone_witness :
  let s := run defaultSettings (startThenTicks 89)
             (initialSession defaultSettings) in
  reachable defaultSettings s
  /\ ((forall c, c <> Reset ->
         coinsEarned s <= coinsEarned (step defaultSettings s c))
      /\ (forall cs, ~ In Reset cs ->
            coinsEarned s <= coinsEarned (run defaultSettings cs s))
      /\ coinsEarned (step defaultSettings s Reset) = 0).
Proof.
  split.
  - apply reachable_from_init.
  - apply (coinsEarned_monotone defaultSettings).
    apply reachable_from_init.
Defined.

(** ** [formatTime] *)

Lemma Number_toString_one_digit (n : Z) :
  0 <= n < 10 -> String.length (Number_toString n) = 1%nat.
Proof.
  intro H.
  assert (Hall : forallb
            (fun k => (String.length (Number_toString (Z.of_nat k)) =? 1)%nat)
            (seq 0 10) = true) by (vm_compute; reflexivity).
  rewrite forallb_forall in Hall.
  specialize (Hall (Z.to_nat n)).
  rewrite Z2Nat.id in Hall by lia.
  apply Nat.eqb_eq, Hall, in_seq. lia.
Qed.

(** A numeral of fewer than two characters denotes a number below 10. *)
Lemma short_numeral_small (d : uint) :
  (String.length (NilZero.string_of_uint d) < 2)%nat ->
  (Pos.of_uint d < 10)%N.
Proof.
  intro H.
  destruct d as [|d|d|d|d|d|d|d|d|d|d]; try reflexivity;
    destruct d; try reflexivity; simpl in H; lia.
Qed.

Lemma Number_toString_two_digits (n : Z) :
  10 <= n -> (2 <= String.length (Number_toString n))%nat.
Proof.
  intro H. destruct n as [|p|p]; try lia.
  unfold Number_toString. simpl.
  destruct (Nat.lt_ge_cases
              (String.length (NilZero.string_of_uint (Pos.to_uint p))) 2)
    as [Hshort|Hlong]; [|exact Hlong].
  apply short_numeral_small in Hshort.
  rewrite DecimalPos.Unsigned.of_to in Hshort. lia.
Qed.

(** On a number that is not negative, [padStart (2, '0')] of its numeral is
    the two-digit padding of the specification. *)
Lemma padStart_pad2 (n : Z) :
  0 <= n -> padStart 2 "0" (Number_toString n) = pad2 n.
Proof.
  intro H. unfold padStart, pad2.
  destruct (n <? 10) eqn:E.
  - apply Z.ltb_lt in E.
    rewrite (Number_toString_one_digit n) by lia. reflexivity.
  - apply Z.ltb_ge in E.
    pose proof (Number_toString_two_digits n E) as Hlen.
    apply Nat.leb_le in Hlen. rewrite Hlen. reflexivity.
Qed.

(** The padding yields two characters at least, and exactly two below 100. *)
Lemma pad2_length (n : Z) :
  0 <= n ->
  (2 <= String.length (pad2 n))%nat
  /\ (n < 100 -> String.length (pad2 n) = 2%nat).
Proof.
  intro H. split.
  - unfold pad2. destruct (n <? 10) eqn:E.
    + apply Z.ltb_lt in E. simpl.
      rewrite (Number_toString_one_digit n) by lia. lia.
    + apply Z.ltb_ge in E. now apply Number_toString_two_digits.
  - intro H100.
    assert (Hall : forallb
              (fun k => (String.length (pad2 (Z.of_nat k)) =? 2)%nat)
              (seq 0 100) = true) by (vm_compute; reflexivity).
    rewrite forallb_forall in Hall.
    specialize (Hall (Z.to_nat n)).
    rewrite Z2Nat.id in Hall by lia.
    apply Nat.eqb_eq, Hall, in_seq. lia.
Qed.

(** C9. For every number of seconds that is not negative, [formatTime]
    returns the minutes, not wrapped at 60, and the seconds modulo 60, each
    padded with a zero to two digits at least and separated by a colon; 3661
    seconds read 61:01 and 0 seconds read 00:00. *)
Theorem formatTime_spec (s : Z) (H : 0 <= s) :
  formatTime s = (pad2 (s / 60) ++ ":" ++ pad2 (s mod 60))%string
  /\ formatTime 3661 = "61:01"%string
  /\ formatTime 0 = "00:00"%string.
Proof.
  split; [|split; reflexivity].
  unfold formatTime.
  rewrite Z.rem_mod_nonneg by lia.
  rewrite (padStart_pad2 (s / 60)) by (apply Z.div_pos; lia).
  rewrite (padStart_pad2 (s mod 60)) by (apply Z.mod_pos_bound; lia).
  reflexivity.
Qed.

Lemma formatTime_spec_witness :
  0 <= 125
  /\ (formatTime 125 = (pad2 (125 / 60) ++ ":" ++ pad2 (125 mod 60))%string
      /\ formatTime 3661 = "61:01"%string
      /\ formatTime 0 = "00:00"%string).
Proof.
  split; [lia | apply (formatTime_spec 125); lia].
Defined.

(** ** [skipPhase] outside a running session *)

Lemma moveToNextPhase_changes settings isSkipped s :
  phase s <> completed -> moveToNextPhase settings isSkipped s <> s.
Proof.
  intros Hp Heq.
  pose proof (f_equal phase Heq) as Hphase.
  pose proof (f_equal currentLoop Heq) as Hloop.
  rewrite moveToNextPhase_phase in Hphase.
  rewrite moveToNextPhase_currentLoop in Hloop.
  destruct (phase s); try congruence;
    destruct (0 <? breakDuration settings); try congruence; lia.
Qed.

Lemma moveToNextPhase_totalSessionTime settings isSkipped s :
  totalSessionTime (moveToNextPhase settings isSkipped s)
  = getCurrentPhaseDuration settings
      (phase (moveToNextPhase settings isSkipped s)).
Proof. open_transition s isSkipped; reflexivity. Qed.

Lemma moveToNextPhase_totalLoops settings isSkipped s :
  totalLoops (moveToNextPhase settings isSkipped s) = totalLoops s.
Proof. open_transition s isSkipped; reflexivity. Qed.

(** The function reading of the table gives what each row of the table
    gives. *)
Lemma tableNextPhase_row settings from loop p :
  transitionTable settings from loop = Some p ->
  tableNextPhase settings from loop = p.
Proof.
  unfold transitionTable, tableNextPhase.
  destruct from; split_tests; intro H; try congruence;
    try discriminate; try lia.
Qed.

(** On a valid configuration and a loop within [loops], the table has a row
    for every phase but Completed. *)
Lemma transitionTable_covers settings from loop :
  0 <= breakDuration settings -> loop <= loops settings ->
  from <> completed ->
  transitionTable settings from loop
  = Some (tableNextPhase settings from loop).
Proof.
  intros Hb Hl Hfrom. unfold transitionTable, tableNextPhase.
  destruct from; split_tests; try reflexivity; try congruence; lia.
Qed.

Lemma moveToNextPhase_tableNextPhase settings isSkipped s :
  phase (moveToNextPhase settings isSkipped s)
  = tableNextPhase settings (phase s) (currentLoop s).
Proof.
  rewrite moveToNextPhase_phase. unfold tableNextPhase.
  destruct (phase s); split_tests; try reflexivity; lia.
Qed.

(** C10. On a session that is Idle or Paused and not yet Completed,
    [skipPhase ()] is not a no-op: it is the whole phase transition with the
    skip flag set.  The session enters the phase that the transition table
    gives, with elapsed time 0 and the duration of that phase as remaining
    and total time; it awards no coins and adds the elapsed time to the
    completed focus time when the phase left is Focus; the run state stays
    what it was unless the phase entered is Completed, which sets it to
    Completed; the loop counter is kept from Preparation and from Focus into
    Break and is raised by one otherwise; [totalLoops] is kept. *)
Theorem skipPhase_idle_or_paused settings s :
  state s = idle \/ state s = paused ->
  phase s <> completed ->
  let s' := skipPhase settings s in
  let next := tableNextPhase settings (phase s) (currentLoop s) in
  s' <> s
  /\ s' = moveToNextPhase settings true s
  /\ phase s' = next
  /\ state s'
     = (if TimerPhase_eqb next completed then state_completed else state s)
  /\ currentLoop s'
     = match phase s with
       | prep => currentLoop s
       | focus =>
           if 0 <? breakDuration settings then currentLoop s
           else currentLoop s + 1
       | break => currentLoop s + 1
       | completed => currentLoop s
       end
  /\ totalLoops s' = totalLoops s
  /\ timeElapsed s' = 0
  /\ timeRemaining s' = phaseDuration settings next
  /\ totalSessionTime s' = phaseDuration settings next
  /\ coinsEarned s' = coinsEarned s
  /\ completedFocusTime s'
     = match phase s with
       | focus => completedFocusTime s + timeElapsed s
       | _ => completedFocusTime s
       end.
Proof.
  intros _ Hp. cbv zeta. unfold skipPhase.
  pose proof (moveToNextPhase_tableNextPhase settings true s) as Hnext.
  split; [now apply moveToNextPhase_changes|].
  split; [reflexivity|].
  split; [exact Hnext|].
  split.
  { rewrite moveToNextPhase_state, Hnext.
    destruct (tableNextPhase settings (phase s) (currentLoop s));
      reflexivity. }
  split; [apply moveToNextPhase_currentLoop|].
  split; [apply moveToNextPhase_totalLoops|].
  split; [apply moveToNextPhase_timeElapsed|].
  split.
  { rewrite moveToNextPhase_timeRemaining, Hnext.
    symmetry. apply phaseDuration_getCurrentPhaseDuration. }
  split.
  { rewrite moveToNextPhase_totalSessionTime, Hnext.
    symmetry. apply phaseDuration_getCurrentPhaseDuration. }
  split.
  { rewrite moveToNextPhase_coinsEarned. destruct (phase s); lia. }
  apply moveToNextPhase_completedFocusTime.
Qed.

Lemma skipPhase_idle_or_paused_witness :
  let s := run defaultSettings (startThenTicks 30 ++ [Pause])
             (initialSession defaultSettings) in
  let s' := skipPhase defaultSettings s in
  (state s = idle \/ state s = paused)
  /\ phase s <> completed
  /\ transitionTable defaultSettings (phase s) (currentLoop s) = Some break
  /\ s' <> s
  /\ phase s' = break
  /\ state s' = paused
  /\ currentLoop s' = 1
  /\ totalLoops s' = 2
  /\ timeElapsed s' = 0
  /\ timeRemaining s' = 30
  /\ totalSessionTime s' = 30
  /\ coinsEarned s' = 0
  /\ completedFocusTime s' = 30.
Proof.
  intros s s'.
  assert (Hst : state s = idle \/ state s = paused) by (right; reflexivity).
  assert (Hph : phase s <> completed) by (vm_compute; discriminate).
  destruct (skipPhase_idle_or_paused defaultSettings s Hst Hph)
    as (Hne & _ & Hphase & Hstate & Hloop & Htotal & Hzero & Hrem & Hdur
        & Hcoins & Hfocus).
  split; [exact Hst|]. split; [exact Hph|]. split; [reflexivity|].
  split; [exact Hne|]. split; [exact Hphase|]. split; [exact Hstate|].
  split; [exact Hloop|]. split; [exact Htotal|]. split; [exact Hzero|].
  split; [exact Hrem|]. split; [exact Hdur|]. split; [exact Hcoins|].
  exact Hfocus.
Defined.

(** * Further properties of the hook *)

(** ** Counting ticks *)

Lemma run_app settings cs1 cs2 s :
  run settings (cs1 ++ cs2) s = run settings cs2 (run settings cs1 s).
Proof. unfold run. apply fold_left_app. Qed.

Lemma advance_0 s : advance 0 s = s.
Proof.
  destruct s; unfold advance; simpl. f_equal; lia.
Qed.

Lemma advance_advance j k s : advance j (advance k s) = advance (k + j) s.
Proof. unfold advance; simpl. f_equal; lia. Qed.

(** A tick inside a phase counts one second. *)
Lemma tick_counts settings s :
  state s = running -> phase s <> completed -> 1 < timeRemaining s ->
  tick settings s = advance 1 s.
Proof.
  intros Hst Hph Hrem. unfold tick, tickUpdate.
  rewrite Hst. simpl.
  destruct (TimerPhase_eqb (phase s) completed) eqn:E.
  - apply TimerPhase_eqb_eq in E. contradiction.
  - destruct (timeRemaining s - 1 <=? 0) eqn:E0.
    + apply Z.leb_le in E0. lia.
    + unfold advance. rewrite Hst. reflexivity.
Qed.

(** The tick on the last second of a phase is the transition. *)
Lemma tick_expires settings s :
  state s = running -> phase s <> completed -> timeRemaining s <= 1 ->
  tick settings s = moveToNextPhase settings false s.
Proof.
  intros Hst Hph Hrem. unfold tick, tickUpdate.
  rewrite Hst. simpl.
  destruct (TimerPhase_eqb (phase s) completed) eqn:E.
  - apply TimerPhase_eqb_eq in E. contradiction.
  - destruct (timeRemaining s - 1 <=? 0) eqn:E0.
    + reflexivity.
    + apply Z.leb_gt in E0. lia.
Qed.

(** A tick on a session that is not running, or is completed, does
    nothing. *)
Lemma tick_idle settings s :
  state s <> running \/ phase s = completed -> tick settings s = s.
Proof.
  intro H. destruct (tick_cases settings s) as [[Heq _]|[[_ H1]|H1]].
  - exact Heq.
  - destruct H1 as (Hst & Hph & _). destruct H; contradiction.
  - destruct H1 as (Hst & Hph & _). destruct H; contradiction.
Qed.

Lemma ticks_count settings (k : nat) : forall s,
  state s = running -> phase s <> completed ->
  Z.of_nat k < timeRemaining s ->
  run settings (repeat Tick k) s = advance (Z.of_nat k) s.
Proof.
  induction k as [|k IH]; intros s Hst Hph Hrem.
  - simpl. symmetry. apply advance_0.
  - change (repeat Tick (S k)) with (Tick :: repeat Tick k).
    change (run settings (Tick :: repeat Tick k) s)
      with (run settings (repeat Tick k) (tick settings s)).
    rewrite tick_counts by (assumption || lia).
    rewrite IH; simpl; try assumption; try lia.
    rewrite advance_advance. f_equal. lia.
Qed.

(** A running phase with [r] seconds left ends on the [r]-th tick, and the
    transition reads an elapsed time that lacks the last second. *)
Lemma ticks_expire settings s (r : Z) :
  state s = running -> phase s <> completed ->
  timeRemaining s = r -> 1 <= r ->
  run settings (repeat Tick (Z.to_nat r)) s
  = moveToNextPhase settings false (advance (r - 1) s).
Proof.
  intros Hst Hph Hrem Hr.
  replace (Z.to_nat r) with (Z.to_nat (r - 1) + 1)%nat by lia.
  rewrite repeat_app, run_app.
  rewrite (ticks_count settings (Z.to_nat (r - 1)) s)
    by (assumption || lia).
  rewrite Z2Nat.id by lia.
  simpl. apply tick_expires; simpl; assumption || lia.
Qed.

(** ** A session left running *)

Section Uninterrupted.

Variable settings : TimerSettings.

Hypothesis focus_positive : 1 <= focusDuration settings.
Hypothesis break_nonneg : 0 <= breakDuration settings.
Hypothesis loops_positive : 1 <= loops settings.

(** Coins paid for one focus phase that runs to its end. *)
Let coinsPerFocus : Z := (focusDuration settings - 1) / 30.

(** Ticks of one loop. *)
Let loopTicks : nat :=
  Z.to_nat (focusDuration settings + breakDuration settings).

Lemma start_initialSession :
  startTimer (initialSession settings)
  = atPhaseStart settings (if hasPrep settings then prep else focus) 1 0 0.
Proof.
  unfold startTimer, initialSession, atPhaseStart; simpl.
  destruct (hasPrep settings); reflexivity.
Qed.

Lemma prep_phase_elapses l c f :
  run settings (repeat Tick 300) (atPhaseStart settings prep l c f)
  = atPhaseStart settings focus l c f.
Proof.
  change 300%nat with (Z.to_nat 300).
  rewrite (ticks_expire settings _ 300);
    try reflexivity; try lia; try discriminate.
  unfold moveToNextPhase, advance, atPhaseStart. simpl. f_equal; lia.
Qed.

Lemma focus_phase_elapses l c f :
  run settings (repeat Tick (Z.to_nat (focusDuration settings)))
    (atPhaseStart settings focus l c f)
  = if breakDuration settings >? 0
    then atPhaseStart settings break l
           (c + coinsPerFocus) (f + (focusDuration settings - 1))
    else if l + 1 <=? loops settings
    then atPhaseStart settings focus (l + 1)
           (c + coinsPerFocus) (f + (focusDuration settings - 1))
    else atCompletion settings (l + 1)
           (c + coinsPerFocus) (f + (focusDuration settings - 1)).
Proof.
  rewrite (ticks_expire settings _ (focusDuration settings));
    try reflexivity; try assumption; try discriminate.
  unfold moveToNextPhase, advance, atPhaseStart, atCompletion, coinsPerFocus.
  simpl. rewrite ?Z.add_0_l.
  destruct (breakDuration settings >? 0); simpl; [f_equal; lia|].
  destruct (l + 1 <=? loops settings); simpl; f_equal; lia.
Qed.

Lemma break_phase_elapses l c f :
  1 <= breakDuration settings ->
  run settings (repeat Tick (Z.to_nat (breakDuration settings)))
    (atPhaseStart settings break l c f)
  = if l + 1 <=? loops settings
    then atPhaseStart settings focus (l + 1) c f
    else atCompletion settings (l + 1) c f.
Proof.
  intro Hb.
  rewrite (ticks_expire settings _ (breakDuration settings));
    try reflexivity; try assumption; try discriminate.
  unfold moveToNextPhase, advance, atPhaseStart, atCompletion. simpl.
  destruct (l + 1 <=? loops settings); simpl; f_equal; lia.
Qed.

(** One loop, focus then break, from its first second. *)
Lemma loop_elapses l c f :
  run settings (repeat Tick loopTicks) (atPhaseStart settings focus l c f)
  = if l + 1 <=? loops settings
    then atPhaseStart settings focus (l + 1)
           (c + coinsPerFocus) (f + (focusDuration settings - 1))
    else atCompletion settings (l + 1)
           (c + coinsPerFocus) (f + (focusDuration settings - 1)).
Proof.
  unfold loopTicks.
  rewrite Z2Nat.inj_add by lia.
  rewrite repeat_app, run_app, focus_phase_elapses.
  destruct (breakDuration settings >? 0) eqn:E.
  - rewrite Z.gtb_ltb in E. apply Z.ltb_lt in E.
    apply break_phase_elapses. lia.
  - rewrite Z.gtb_ltb in E. apply Z.ltb_ge in E.
    replace (breakDuration settings) with 0 by lia. reflexivity.
Qed.

(** [j] loops in a row, as long as they stay within [loops]. *)
Lemma loops_elapse (j : nat) : forall l c f,
  l + Z.of_nat j <= loops settings ->
  run settings (repeat Tick (j * loopTicks)) (atPhaseStart settings focus l c f)
  = atPhaseStart settings focus (l + Z.of_nat j)
      (c + Z.of_nat j * coinsPerFocus)
      (f + Z.of_nat j * (focusDuration settings - 1)).
Proof.
  induction j as [|j IH]; intros l c f Hl.
  - simpl. f_equal; lia.
  - change (S j * loopTicks)%nat with (loopTicks + j * loopTicks)%nat.
    rewrite repeat_app, run_app, loop_elapses.
    assert (E : (l + 1 <=? loops settings) = true) by (apply Z.leb_le; lia).
    rewrite E, IH by lia.
    f_equal; lia.
Qed.

(** The ticks of a whole session: preparation, all loops but the last, the
    last loop. *)
Lemma total_ticks :
  Z.to_nat (getTotalDuration settings)
  = ((if hasPrep settings then 300 else 0)
     + (Z.to_nat (loops settings - 1) * loopTicks + loopTicks))%nat.
Proof.
  unfold getTotalDuration, loopTicks, PREP_DURATION.
  destruct (hasPrep settings); nia.
Qed.

(** The session at the first second of its last loop. *)
Lemma last_loop_reached :
  run settings
    (startThenTicks ((if hasPrep settings then 300 else 0)
                     + Z.to_nat (loops settings - 1) * loopTicks))
    (initialSession settings)
  = atPhaseStart settings focus (loops settings)
      ((loops settings - 1) * coinsPerFocus)
      ((loops settings - 1) * (focusDuration settings - 1)).
Proof.
  unfold startThenTicks.
  change (run settings (Start :: ?cs) ?s)
    with (run settings cs (startTimer s)).
  rewrite start_initialSession, repeat_app, run_app.
  assert (Hprep :
    run settings (repeat Tick (if hasPrep settings then 300 else 0)%nat)
      (atPhaseStart settings (if hasPrep settings then prep else focus) 1 0 0)
    = atPhaseStart settings focus 1 0 0).
  { destruct (hasPrep settings); [apply prep_phase_elapses|reflexivity]. }
  rewrite Hprep, loops_elapse by lia.
  rewrite Z2Nat.id by lia. f_equal; lia.
Qed.

Lemma session_completes :
  run settings (startThenTicks (Z.to_nat (getTotalDuration settings)))
    (initialSession settings)
  = atCompletion settings (loops settings + 1)
      (loops settings * coinsPerFocus)
      (loops settings * (focusDuration settings - 1)).
Proof.
  rewrite total_ticks, Nat.add_assoc.
  unfold startThenTicks. rewrite repeat_app, app_comm_cons, run_app.
  fold (startThenTicks ((if hasPrep settings then 300 else 0)
                        + Z.to_nat (loops settings - 1) * loopTicks)).
  rewrite last_loop_reached, loop_elapses.
  assert (E : (loops settings + 1 <=? loops settings) = false)
    by (apply Z.leb_gt; lia).
  rewrite E. f_equal; lia.
Qed.

(** One tick before the end the session is in its last phase. *)
Lemma session_last_second :
  phase (run settings
           (startThenTicks (Z.to_nat (getTotalDuration settings) - 1))
           (initialSession settings))
  <> completed.
Proof.
  rewrite total_ticks.
  assert (Hn : (1 <= loopTicks)%nat) by (unfold loopTicks; lia).
  replace ((if hasPrep settings then 300 else 0)
           + (Z.to_nat (loops settings - 1) * loopTicks + loopTicks) - 1)%nat
    with (((if hasPrep settings then 300 else 0)
           + Z.to_nat (loops settings - 1) * loopTicks)
          + (loopTicks - 1))%nat by lia.
  unfold startThenTicks. rewrite repeat_app, app_comm_cons, run_app.
  fold (startThenTicks ((if hasPrep settings then 300 else 0)
                        + Z.to_nat (loops settings - 1) * loopTicks)).
  rewrite last_loop_reached.
  destruct (breakDuration settings >? 0) eqn:E; rewrite Z.gtb_ltb in E.
  - apply Z.ltb_lt in E.
    replace (loopTicks - 1)%nat
      with (Z.to_nat (focusDuration settings)
            + Z.to_nat (breakDuration settings - 1))%nat
      by (unfold loopTicks; lia).
    rewrite repeat_app, run_app, focus_phase_elapses.
    assert (E' : (breakDuration settings >? 0) = true)
      by (rewrite Z.gtb_ltb; apply Z.ltb_lt; lia).
    rewrite E', ticks_count; simpl; try discriminate; try reflexivity; lia.
  - apply Z.ltb_ge in E.
    replace (loopTicks - 1)%nat
      with (Z.to_nat (focusDuration settings - 1))
      by (unfold loopTicks; lia).
    rewrite ticks_count; simpl; try discriminate; try reflexivity; lia.
Qed.

End Uninterrupted.

Lemma ticks_ignored settings (n : nat) s :
  state s <> running \/ phase s = completed ->
  run settings (repeat Tick n) s = s.
Proof.
  intro H. induction n as [|n IH]; [reflexivity|].
  change (run settings (repeat Tick (S n)) s)
    with (run settings (repeat Tick n) (tick settings s)).
  rewrite tick_idle by exact H. exact IH.
Qed.

(** X1. When the focus duration is at least 1, the break duration is not
    negative and there is at least one loop, a session that is started and
    then only ticked reaches the phase Completed on the tick whose number is
    [getTotalDuration], and on no earlier tick. *)
Theorem uninterrupted_session_length settings :
  1 <= focusDuration settings ->
  0 <= breakDuration settings ->
  1 <= loops settings ->
  phase (run settings
           (startThenTicks (Z.to_nat (getTotalDuration settings)))
           (initialSession settings)) = completed
  /\ forall n : nat,
       (n < Z.to_nat (getTotalDuration settings))%nat ->
       phase (run settings (startThenTicks n) (initialSession settings))
       <> completed.
Proof.
  intros HF HB HL. split.
  - rewrite session_completes by assumption. reflexivity.
  - intros n Hn Hdone.
    apply (session_last_second settings HF HB HL).
    replace (Z.to_nat (getTotalDuration settings) - 1)%nat
      with (n + (Z.to_nat (getTotalDuration settings) - 1 - n))%nat by lia.
    unfold startThenTicks in *.
    rewrite repeat_app, app_comm_cons, run_app.
    rewrite ticks_ignored by (right; exact Hdone). exact Hdone.
Qed.

Lemma uninterrupted_session_length_witness :
  1 <= focusDuration settingsWithPrep
  /\ 0 <= breakDuration settingsWithPrep
  /\ 1 <= loops settingsWithPrep
  /\ Z.to_nat (getTotalDuration settingsWithPrep) = 480%nat
  /\ phase (run settingsWithPrep (startThenTicks 480)
              (initialSession settingsWithPrep)) = completed
  /\ phase (run settingsWithPrep (startThenTicks 479)
              (initialSession settingsWithPrep)) <> completed.
Proof.
  assert (HF : 1 <= focusDuration settingsWithPrep) by (simpl; lia).
  assert (HB : 0 <= breakDuration settingsWithPrep) by (simpl; lia).
  assert (HL : 1 <= loops settingsWithPrep) by (simpl; lia).
  destruct (uninterrupted_session_length settingsWithPrep HF HB HL)
    as [Hend Hbefore].
  split; [exact HF|]. split; [exact HB|]. split; [exact HL|].
  split; [reflexivity|]. split; [exact Hend|].
  apply (Hbefore 479%nat). vm_compute. lia.
Defined.

(** X2. Under the same conditions the completed session is in run state
    Completed, its loop counter is one past [loops], and every loop has paid
    for its focus duration less the last second: the completed focus time is
    [loops * (focusDuration - 1)] and the coins are
    [loops * floor ((focusDuration - 1) / 30)]. *)
Theorem uninterrupted_session_tallies settings :
  1 <= focusDuration settings ->
  0 <= breakDuration settings ->
  1 <= loops settings ->
  let s := run settings
             (startThenTicks (Z.to_nat (getTotalDuration settings)))
             (initialSession settings) in
  state s = state_completed
  /\ currentLoop s = loops settings + 1
  /\ completedFocusTime s = loops settings * (focusDuration settings - 1)
  /\ coinsEarned s
     = loops settings * ((focusDuration settings - 1) / 30).
Proof.
  intros HF HB HL. cbv zeta.
  rewrite session_completes by assumption. repeat split.
Qed.

Lemma uninterrupted_session_tallies_witness :
  let s := run longFocusSettings (startThenTicks 360)
             (initialSession longFocusSettings) in
  1 <= focusDuration longFocusSettings
  /\ 0 <= breakDuration longFocusSettings
  /\ 1 <= loops longFocusSettings
  /\ state s = state_completed
  /\ currentLoop s = 3
  /\ completedFocusTime s = 298
  /\ coinsEarned s = 8.
Proof.
  assert (HF : 1 <= focusDuration longFocusSettings) by (simpl; lia).
  assert (HB : 0 <= breakDuration longFocusSettings) by (simpl; lia).
  assert (HL : 1 <= loops longFocusSettings) by (simpl; lia).
  pose proof (uninterrupted_session_tallies longFocusSettings HF HB HL)
    as Htallies.
  split; [exact HF|]. split; [exact HB|]. split; [exact HL|].
  exact Htallies.
Defined.

(** ** Pausing *)

(** X3. Pausing freezes the session: after [pause ()], any number of ticks
    leaves the paused session as it is, and resuming afterwards gives the
    session that [start ()] alone would have given. *)
Theorem pause_freezes settings s (n : nat) :
  run settings (Pause :: repeat Tick n) s = pauseTimer s
  /\ run settings (Pause :: repeat Tick n ++ [Start]) s = startTimer s.
Proof.
  assert (Hfrozen : run settings (repeat Tick n) (pauseTimer s) = pauseTimer s)
    by (apply ticks_ignored; left; discriminate).
  split.
  - exact Hfrozen.
  - change (run settings (Pause :: repeat Tick n ++ [Start]) s)
      with (run settings (repeat Tick n ++ [Start]) (pauseTimer s)).
    rewrite run_app, Hfrozen. reflexivity.
Qed.

(** ** After completion *)

Lemma completed_step settings s c :
  phase s = completed -> c <> Reset ->
  phase (step settings s c) = completed
  /\ currentLoop (step settings s c) = currentLoop s
  /\ coinsEarned (step settings s c) = coinsEarned s
  /\ completedFocusTime (step settings s c) = completedFocusTime s.
Proof.
  intros Hp Hc. destruct c; simpl.
  - auto.
  - auto.
  - congruence.
  - unfold skipPhase.
    rewrite moveToNextPhase_phase, moveToNextPhase_currentLoop,
      moveToNextPhase_coinsEarned, moveToNextPhase_completedFocusTime, Hp.
    repeat split. lia.
  - rewrite tick_idle by (right; exact Hp). auto.
Qed.

(** X4. Completion is final: from a session in phase Completed, no sequence
    of [start ()], [pause ()], [skipPhase ()] and [tick ()] leaves that
    phase or alters the loop counter, the coins or the completed focus time;
    only [reset ()] does. *)
Theorem completed_session_is_final settings cs : forall s,
  phase s = completed -> ~ In Reset cs ->
  phase (run settings cs s) = completed
  /\ currentLoop (run settings cs s) = currentLoop s
  /\ coinsEarned (run settings cs s) = coinsEarned s
  /\ completedFocusTime (run settings cs s) = completedFocusTime s.
Proof.
  induction cs as [|c cs IH]; intros s Hp Hin; [simpl; auto|].
  assert (Hc : c <> Reset) by (intro Heq; apply Hin; left; auto).
  assert (Hcs : ~ In Reset cs) by (intro Hcs; apply Hin; right; auto).
  destruct (completed_step settings s c Hp Hc) as (Hp' & Hl & Hcoins & Hf).
  destruct (IH (step settings s c) Hp' Hcs) as (IH1 & IH2 & IH3 & IH4).
  change (run settings (c :: cs) s) with (run settings cs (step settings s c)).
  repeat split; congruence.
Qed.

Lemma completed_session_is_final_witness :
  let s := run scenarioE (startThenTicks 150) (initialSession scenarioE) in
  let s' := run scenarioE [Start; Tick; Skip; Pause; Tick; Start; Skip] s in
  phase s = completed
  /\ ~ In Reset [Start; Tick; Skip; Pause; Tick; Start; Skip]
  /\ phase s' = completed
  /\ currentLoop s' = currentLoop s
  /\ coinsEarned s' = coinsEarned s
  /\ completedFocusTime s' = completedFocusTime s.
Proof.
  intros s s'.
  assert (Hp : phase s = completed) by reflexivity.
  assert (Hin : ~ In Reset [Start; Tick; Skip; Pause; Tick; Start; Skip]).
  { simpl. intros [H|[H|[H|[H|[H|[H|[H|H]]]]]]];
      try discriminate H; exact H. }
  split; [exact Hp|]. split; [exact Hin|].
  exact (completed_session_is_final scenarioE _ s Hp Hin).
Defined.

(** ** Coins and focus time *)

Lemma coins_invariant settings s :
  reachable settings s ->
  0 <= coinsEarned s
  /\ 0 <= completedFocusTime s
  /\ 30 * coinsEarned s <= completedFocusTime s.
Proof.
  induction 1 as [|s c Hs IH]; [simpl; lia|].
  pose proof (timeElapsed_nonneg settings s Hs) as He.
  assert (Hmove : forall b,
    0 <= coinsEarned (moveToNextPhase settings b s)
    /\ 0 <= completedFocusTime (moveToNextPhase settings b s)
    /\ 30 * coinsEarned (moveToNextPhase settings b s)
       <= completedFocusTime (moveToNextPhase settings b s)).
  { intro b.
    rewrite moveToNextPhase_coinsEarned, moveToNextPhase_completedFocusTime.
    pose proof (Z.mul_div_le (timeElapsed s) 30 ltac:(lia)).
    assert (0 <= timeElapsed s / 30) by (apply Z.div_pos; lia).
    destruct (phase s), b; lia. }
  destruct c; simpl; try assumption.
  - lia.
  - apply Hmove.
  - destruct (tick_cases settings s) as [[-> _]|[[-> _]|H]].
    + assumption.
    + apply Hmove.
    + destruct H as (_ & _ & _ & _ & _ & _ & _ & _ & -> & ->). assumption.
Qed.

(** X5. In every reachable state the coins and the completed focus time are
    not negative, and the session never holds more than one coin per 30
    seconds of completed focus time. *)
Theorem coins_within_focus_time settings s :
  reachable settings s ->
  0 <= coinsEarned s
  /\ 0 <= completedFocusTime s
  /\ 30 * coinsEarned s <= completedFocusTime s.
Proof. apply coins_invariant. Qed.

Lemma coins_within_focus_time_witness :
  let s := run longFocusSettings (startThenTicks 200 ++ [Skip; Skip; Tick])
             (initialSession longFocusSettings) in
  reachable longFocusSettings s
  /\ (0 <= coinsEarned s
      /\ 0 <= completedFocusTime s
      /\ 30 * coinsEarned s <= completedFocusTime s).
Proof.
  split.
  - apply reachable_from_init.
  - apply (coins_within_focus_time longFocusSettings).
    apply reachable_from_init.
Defined.

(** X6. Coins are earned in one way only: if a command raises [coinsEarned]
    on a reachable session, the command is a tick, the session is running in
    a focus phase on its last second with at least 30 seconds already
    elapsed, and the raise is [floor (timeElapsed / 30)]. *)
Theorem coins_only_at_natural_focus_end settings s c :
  reachable settings s ->
  coinsEarned s < coinsEarned (step settings s c) ->
  c = Tick
  /\ state s = running
  /\ phase s = focus
  /\ timeRemaining s <= 1
  /\ 30 <= timeElapsed s
  /\ coinsEarned (step settings s c) = coinsEarned s + timeElapsed s / 30.
Proof.
  intros Hs Hup.
  destruct (coins_invariant settings s Hs) as (Hc0 & _ & _).
  destruct c; simpl in Hup; try lia.
  - unfold skipPhase in Hup. rewrite moveToNextPhase_coinsEarned in Hup.
    destruct (phase s); lia.
  - simpl.
    destruct (tick_cases settings s) as [[Heq _]|[[Heq H]|H]].
    + rewrite Heq in Hup. lia.
    + destruct H as (Hst & Hph & Hrem).
      rewrite Heq in *. rewrite moveToNextPhase_coinsEarned in *.
      destruct (phase s) eqn:Hphase; try lia.
      repeat split; try assumption; try lia.
      destruct (Z_lt_le_dec (timeElapsed s) 30) as [Hlt|Hge]; [|exact Hge].
      pose proof (timeElapsed_nonneg settings s Hs).
      rewrite Z.div_small in Hup by lia. lia.
    + destruct H as (_ & _ & _ & _ & _ & _ & _ & _ & Heq & _).
      rewrite Heq in Hup. lia.
Qed.

Lemma coins_only_at_natural_focus_end_witness :
  let s := run defaultSettings (startThenTicks 59)
             (initialSession defaultSettings) in
  reachable defaultSettings s
  /\ coinsEarned s < coinsEarned (step defaultSettings s Tick)
  /\ (Tick = Tick
      /\ state s = running
      /\ phase s = focus
      /\ timeRemaining s <= 1
      /\ 30 <= timeElapsed s
      /\ coinsEarned (step defaultSettings s Tick)
         = coinsEarned s + timeElapsed s / 30).
Proof.
  intro s.
  assert (Hs : reachable defaultSettings s) by apply reachable_from_init.
  assert (Hup : coinsEarned s < coinsEarned (step defaultSettings s Tick))
    by (vm_compute; reflexivity).
  split; [exact Hs|]. split; [exact Hup|].
  exact (coins_only_at_natural_focus_end defaultSettings s Tick Hs Hup).
Defined.

(** ** Time within a phase *)

Lemma tick_trichotomy settings s :
  tick settings s = s
  \/ tick settings s = moveToNextPhase settings false s
  \/ (tick settings s = advance 1 s /\ 1 < timeRemaining s).
Proof.
  destruct (tick_cases settings s) as [[H _]|[[H _]|H]]; auto.
  destruct H as (Hst & Hph & Hrem & _).
  right; right. split; [|lia]. apply tick_counts; assumption || lia.
Qed.

Lemma phase_entered_lasts settings isSkipped s :
  1 <= focusDuration settings ->
  phase (moveToNextPhase settings isSkipped s) <> completed ->
  1 <= getCurrentPhaseDuration settings
         (phase (moveToNextPhase settings isSkipped s)).
Proof.
  intros HF. rewrite moveToNextPhase_phase.
  destruct (phase s); split_tests; simpl; intros; congruence || lia.
Qed.

Lemma time_invariant settings s :
  1 <= focusDuration settings ->
  reachable settings s ->
  totalSessionTime s = getCurrentPhaseDuration settings (phase s)
  /\ timeElapsed s + timeRemaining s = totalSessionTime s
  /\ 0 <= timeElapsed s
  /\ (phase s <> completed -> 1 <= timeRemaining s).
Proof.
  intros HF Hs.
  induction Hs as [|s c Hs IH].
  - simpl. destruct (hasPrep settings); simpl; repeat split;
      unfold PREP_DURATION; lia.
  - destruct IH as (IH1 & IH2 & IH3 & IH4).
    assert (Hmove : forall b,
      totalSessionTime (moveToNextPhase settings b s)
      = getCurrentPhaseDuration settings
          (phase (moveToNextPhase settings b s))
      /\ timeElapsed (moveToNextPhase settings b s)
         + timeRemaining (moveToNextPhase settings b s)
         = totalSessionTime (moveToNextPhase settings b s)
      /\ 0 <= timeElapsed (moveToNextPhase settings b s)
      /\ (phase (moveToNextPhase settings b s) <> completed ->
          1 <= timeRemaining (moveToNextPhase settings b s))).
    { intro b.
      rewrite moveToNextPhase_totalSessionTime, moveToNextPhase_timeElapsed,
        moveToNextPhase_timeRemaining.
      repeat split; try lia.
      now apply phase_entered_lasts. }
    destruct c; simpl.
    + repeat split; assumption.
    + repeat split; assumption.
    + destruct (hasPrep settings); simpl; repeat split;
        unfold PREP_DURATION; lia.
    + apply Hmove.
    + destruct (tick_trichotomy settings s) as [->|[->|[-> Hrem]]].
      * repeat split; assumption.
      * apply Hmove.
      * simpl. repeat split; try assumption; lia.
Qed.

(** X7. When the focus duration is at least 1, every reachable session that
    is not completed has at least one second remaining and an elapsed time
    from 0 up to, but never reaching, [totalSessionTime], which is the
    duration of the current phase. *)
Theorem time_within_phase settings s :
  1 <= focusDuration settings ->
  reachable settings s ->
  phase s <> completed ->
  1 <= timeRemaining s
  /\ 0 <= timeElapsed s < totalSessionTime s
  /\ totalSessionTime s = getCurrentPhaseDuration settings (phase s).
Proof.
  intros HF Hs Hp.
  destruct (time_invariant settings s HF Hs) as (H1 & H2 & H3 & H4).
  specialize (H4 Hp). repeat split; try assumption; lia.
Qed.

Lemma time_within_phase_witness :
  let s := run settingsWithPrep (startThenTicks 359 ++ [Pause])
             (initialSession settingsWithPrep) in
  1 <= focusDuration settingsWithPrep
  /\ reachable settingsWithPrep s
  /\ phase s <> completed
  /\ (1 <= timeRemaining s
      /\ 0 <= timeElapsed s < totalSessionTime s
      /\ totalSessionTime s
         = getCurrentPhaseDuration settingsWithPrep (phase s)).
Proof.
  intro s.
  assert (HF : 1 <= focusDuration settingsWithPrep) by (simpl; lia).
  assert (Hs : reachable settingsWithPrep s) by apply reachable_from_init.
  assert (Hp : phase s <> completed) by (vm_compute; discriminate).
  split; [exact HF|]. split; [exact Hs|]. split; [exact Hp|].
  exact (time_within_phase settingsWithPrep s HF Hs Hp).
Defined.

(** ** A reset between a tick and its transition *)

(** When nothing comes between them, the interval's tick and the timeout it
    may have armed make up [tick]. *)
Lemma tick_in_two_steps settings s :
  session (handleAll settings [IntervalFires; TimeoutFires]
             {| session := s; armed := 0 |})
  = tick settings s.
Proof.
  unfold handleAll, tick. simpl.
  destruct (tickUpdate s) as [next arms]. simpl.
  destruct arms; reflexivity.
Qed.

(** X8. [resetTimer] does not cancel the transition that a tick has armed.
    For a running session on the last second of a phase, the tick and its
    timeout together are [tick], and a reset after them gives the initial
    session; but a reset handled between the tick and its timeout is followed
    by [moveToNextPhase ()] on the fresh session, which leaves a session that
    is not the initial one, in its next phase, not running, with no coins and
    no completed focus time. *)
Theorem reset_does_not_cancel_transition settings s :
  state s = running ->
  phase s <> completed ->
  timeRemaining s <= 1 ->
  let started := {| session := s; armed := 0 |} in
  let late :=
    session (handleAll settings [IntervalFires; TimeoutFires; PressReset]
               started) in
  let early :=
    session (handleAll settings [IntervalFires; PressReset; TimeoutFires]
               started) in
  session (handleAll settings [IntervalFires; TimeoutFires] started)
  = tick settings s
  /\ late = initialSession settings
  /\ early = moveToNextPhase settings false (initialSession settings)
  /\ early <> initialSession settings
  /\ phase early
     = tableNextPhase settings (if hasPrep settings then prep else focus) 1
  /\ (state early = idle \/ state early = state_completed)
  /\ coinsEarned early = 0
  /\ completedFocusTime early = 0.
Proof.
  intros Hst Hph Hrem. cbv zeta.
  assert (Harm : tickUpdate s = (s, true)).
  { unfold tickUpdate. rewrite Hst. simpl.
    destruct (TimerPhase_eqb (phase s) completed) eqn:E.
    - apply TimerPhase_eqb_eq in E. contradiction.
    - destruct (timeRemaining s - 1 <=? 0) eqn:E0; [reflexivity|].
      apply Z.leb_gt in E0. lia. }
  assert (Hearly :
    session (handleAll settings [IntervalFires; PressReset; TimeoutFires]
               {| session := s; armed := 0 |})
    = moveToNextPhase settings false (initialSession settings)).
  { unfold handleAll. simpl. rewrite Harm. reflexivity. }
  split; [apply tick_in_two_steps|].
  split; [unfold handleAll; simpl; rewrite Harm; reflexivity|].
  rewrite Hearly.
  split; [reflexivity|].
  split.
  { apply moveToNextPhase_changes. simpl.
    destruct (hasPrep settings); discriminate. }
  split; [apply moveToNextPhase_tableNextPhase|].
  split.
  { rewrite moveToNextPhase_state.
    destruct (phase (moveToNextPhase settings false (initialSession settings)));
      auto. }
  split.
  { rewrite moveToNextPhase_coinsEarned. simpl.
    destruct (hasPrep settings); reflexivity. }
  rewrite moveToNextPhase_completedFocusTime. simpl.
  destruct (hasPrep settings); reflexivity.
Qed.

Lemma reset_does_not_cancel_transition_witness :
  let s := run defaultSettings (startThenTicks 59)
             (initialSession defaultSettings) in
  let early :=
    session (handleAll defaultSettings
               [IntervalFires; PressReset; TimeoutFires]
               {| session := s; armed := 0 |}) in
  state s = running
  /\ phase s <> completed
  /\ timeRemaining s <= 1
  /\ early <> initialSession defaultSettings
  /\ phase early = break
  /\ state early = idle
  /\ timeRemaining early = 30.
Proof.
  intros s early.
  assert (Hst : state s = running) by reflexivity.
  assert (Hph : phase s <> completed) by (vm_compute; discriminate).
  assert (Hrem : timeRemaining s <= 1) by (vm_compute; discriminate).
  destruct (reset_does_not_cancel_transition defaultSettings s Hst Hph Hrem)
    as (_ & _ & _ & Hne & Hphase & _).
  split; [exact Hst|]. split; [exact Hph|]. split; [exact Hrem|].
  split; [exact Hne|]. split; [exact Hphase|]. split; reflexivity.
Defined.

(** ** [formatTime] tells times apart *)

(** The numeral of an integer reads back as that integer. *)
Lemma Number_toString_parse (n : Z) :
  option_map Z.of_int (NilZero.int_of_string (Number_toString n)) = Some n.
Proof.
  unfold Number_toString.
  rewrite NilZero.isi.
  - simpl. f_equal. apply DecimalZ.of_to.
  - destruct n as [|p|p]; simpl; try discriminate.
    intro H. injection H as H. now apply DecimalPos.Unsigned.to_uint_nonnil in H.
  - destruct n as [|p|p]; simpl; try discriminate.
    intro H. injection H as H. now apply DecimalPos.Unsigned.to_uint_nonnil in H.
Qed.

Lemma Number_toString_inj (a b : Z) :
  Number_toString a = Number_toString b -> a = b.
Proof.
  intro H.
  pose proof (Number_toString_parse a) as Ha.
  rewrite H, Number_toString_parse in Ha. congruence.
Qed.

(** A one-digit numeral behind a zero still reads as the digit. *)
Lemma padded_digit_parse (n : Z) :
  0 <= n < 10 ->
  option_map Z.of_int
    (NilZero.int_of_string (String "0" (Number_toString n))) = Some n.
Proof.
  intro H.
  assert (Hall : forallb
            (fun k =>
               match option_map Z.of_int
                       (NilZero.int_of_string
                          (String "0" (Number_toString (Z.of_nat k)))) with
               | Some m => m =? Z.of_nat k
               | None => false
               end)
            (seq 0 10) = true) by (vm_compute; reflexivity).
  rewrite forallb_forall in Hall.
  specialize (Hall (Z.to_nat n)).
  rewrite Z2Nat.id in Hall by lia.
  destruct (option_map Z.of_int
              (NilZero.int_of_string (String "0" (Number_toString n))))
    as [m|].
  - f_equal. apply Z.eqb_eq, Hall, in_seq. lia.
  - discriminate Hall. apply in_seq. lia.
Qed.

Lemma pad2_parse (n : Z) :
  0 <= n -> option_map Z.of_int (NilZero.int_of_string (pad2 n)) = Some n.
Proof.
  intro H. unfold pad2. destruct (n <? 10) eqn:E.
  - apply Z.ltb_lt in E. apply padded_digit_parse. lia.
  - apply Number_toString_parse.
Qed.

Lemma pad2_inj (a b : Z) : 0 <= a -> 0 <= b -> pad2 a = pad2 b -> a = b.
Proof.
  intros Ha Hb H.
  pose proof (pad2_parse a Ha) as Pa.
  rewrite H, pad2_parse in Pa by assumption. congruence.
Qed.

Lemma string_length_app (x y : string) :
  String.length (x ++ y) = (String.length x + String.length y)%nat.
Proof. induction x as [|c x IH]; simpl; [reflexivity|now rewrite IH]. Qed.

(** Two concatenations with tails of equal length agree part by part. *)
Lemma string_app_inj_tail (x x' y y' : string) :
  String.length y = String.length y' ->
  (x ++ y)%string = (x' ++ y')%string -> x = x' /\ y = y'.
Proof.
  revert x'. induction x as [|c x IH]; intros [|c' x'] Hlen H; simpl in H.
  - auto.
  - apply (f_equal String.length) in H. simpl in H.
    rewrite string_length_app in H. lia.
  - apply (f_equal String.length) in H. simpl in H.
    rewrite string_length_app in H. lia.
  - injection H as Hc Hrest. destruct (IH x' Hlen Hrest) as [-> ->]. subst. auto.
Qed.

Lemma formatTime_pad2 (s : Z) :
  0 <= s -> formatTime s = (pad2 (s / 60) ++ ":" ++ pad2 (s mod 60))%string.
Proof.
  intro H. unfold formatTime.
  rewrite Z.rem_mod_nonneg by lia.
  rewrite (padStart_pad2 (s / 60)) by (apply Z.div_pos; lia).
  rewrite (padStart_pad2 (s mod 60)) by (apply Z.mod_pos_bound; lia).
  reflexivity.
Qed.

Lemma formatTime_seconds_length (s : Z) :
  0 <= s -> String.length (":" ++ pad2 (s mod 60)) = 3%nat.
Proof.
  intro Hs. simpl. f_equal.
  pose proof (Z.mod_pos_bound s 60 ltac:(lia)) as Hmod.
  destruct (pad2_length (s mod 60)) as [_ H2]; [lia|]. apply H2. lia.
Qed.

Lemma formatTime_inj (a b : Z) :
  0 <= a -> 0 <= b -> formatTime a = formatTime b -> a = b.
Proof.
  intros Ha Hb H. rewrite !formatTime_pad2 in H by assumption.
  apply string_app_inj_tail in H;
    [|now rewrite !formatTime_seconds_length].
  destruct H as [Hmin Hrest]. injection Hrest as Hrest.
  apply pad2_inj in Hmin; try (apply Z.div_pos; lia).
  apply pad2_inj in Hrest; try (apply Z.mod_pos_bound; lia).
  rewrite (Z.div_mod a 60), (Z.div_mod b 60) by lia. congruence.
Qed.

(** X9. [formatTime] tells times apart: two numbers of seconds that are not
    negative and are formatted alike are equal; and below 100 minutes the
    text has exactly five characters. *)
Theorem formatTime_injective (a b : Z) :
  0 <= a -> 0 <= b ->
  (formatTime a = formatTime b -> a = b)
  /\ (a < 6000 -> String.length (formatTime a) = 5%nat).
Proof.
  intros Ha Hb. split.
  - now apply formatTime_inj.
  - intro Hlt.
    rewrite formatTime_pad2, string_length_app, formatTime_seconds_length
      by assumption.
    assert (Hm : 0 <= a / 60 < 100).
    { split; [apply Z.div_pos; lia|apply Z.div_lt_upper_bound; lia]. }
    destruct (pad2_length (a / 60) (proj1 Hm)) as [_ H2].
    rewrite H2 by lia. reflexivity.
Qed.

Lemma formatTime_injective_witness :
  0 <= 3661 /\ 0 <= 61
  /\ (formatTime 3661 = formatTime 61 -> 3661 = 61)
  /\ (3661 < 6000 -> String.length (formatTime 3661) = 5%nat).
Proof.
  split; [lia|]. split; [lia|].
  apply (formatTime_injective 3661 61); lia.
Defined.

(** * The time picker *)

(** X10. With a minimum that is not negative, the time that [updateTime]
    stores is the larger of the requested time and the minimum; seconds that
    were in 0..59 stay in 0..59 and minutes that were not negative stay
    so. *)
Theorem updateTime_clamps (minimumSeconds minutes seconds : Z) :
  0 <= minimumSeconds ->
  fst (updateTime minimumSeconds minutes seconds) * 60
  + snd (updateTime minimumSeconds minutes seconds)
  = Z.max (minutes * 60 + seconds) minimumSeconds
  /\ (0 <= seconds < 60 ->
      0 <= snd (updateTime minimumSeconds minutes seconds) < 60)
  /\ (0 <= minutes -> 0 <= fst (updateTime minimumSeconds minutes seconds)).
Proof.
  intro Hmin. unfold updateTime.
  destruct (minutes * 60 + seconds <? minimumSeconds) eqn:E; simpl.
  - apply Z.ltb_lt in E.
    rewrite Z.rem_mod_nonneg by lia.
    pose proof (Z.div_mod minimumSeconds 60 ltac:(lia)).
    pose proof (Z.mod_pos_bound minimumSeconds 60 ltac:(lia)).
    assert (0 <= minimumSeconds / 60) by (apply Z.div_pos; lia).
    repeat split; lia.
  - apply Z.ltb_ge in E. repeat split; lia.
Qed.

Lemma updateTime_clamps_witness :
  0 <= 30
  /\ (fst (updateTime 30 0 15) * 60 + snd (updateTime 30 0 15)
      = Z.max (0 * 60 + 15) 30
      /\ (0 <= 15 < 60 -> 0 <= snd (updateTime 30 0 15) < 60)
      /\ (0 <= 0 -> 0 <= fst (updateTime 30 0 15))).
Proof.
  split; [lia | apply (updateTime_clamps 30 0 15); lia].
Defined.

(** X11. Whatever value of its two columns is pressed, the picker ends on
    a time that respects the minimum and stays within its columns: when the
    selection holds minutes in 0..60 and seconds in 0..59 and the minimum
    lies in 0..3600, so does the selection after the press, and its total
    is at least the minimum. *)
Theorem picker_press_in_range (minimumSeconds : Z) (selected : Z * Z) :
  0 <= minimumSeconds <= 3600 ->
  0 <= fst selected <= 60 ->
  0 <= snd selected < 60 ->
  forall selected',
    (exists minute, In minute (minuteChoices selected)
       /\ selected' = handleMinutesChange minimumSeconds selected minute)
    \/ (exists second, In second (secondChoices selected)
          /\ selected' = handleSecondsChange minimumSeconds selected second) ->
    0 <= fst selected' <= 60
    /\ 0 <= snd selected' < 60
    /\ minimumSeconds <= fst selected' * 60 + snd selected'.
Proof.
  intros Hmin Hm Hs selected' Hpress.
  assert (Hclamp : forall m s, 0 <= m <= 60 -> 0 <= s < 60 ->
    0 <= fst (updateTime minimumSeconds m s) <= 60
    /\ 0 <= snd (updateTime minimumSeconds m s) < 60
    /\ minimumSeconds
       <= fst (updateTime minimumSeconds m s) * 60
          + snd (updateTime minimumSeconds m s)).
  { intros m s Hm' Hs'. unfold updateTime.
    destruct (m * 60 + s <? minimumSeconds) eqn:E; simpl.
    - rewrite Z.rem_mod_nonneg by lia.
      pose proof (Z.div_mod minimumSeconds 60 ltac:(lia)).
      pose proof (Z.mod_pos_bound minimumSeconds 60 ltac:(lia)).
      assert (0 <= minimumSeconds / 60) by (apply Z.div_pos; lia).
      assert (minimumSeconds / 60 <= 60)
        by (apply Z.div_le_upper_bound; lia).
      lia.
    - apply Z.ltb_ge in E. lia. }
  destruct Hpress as [(minute & Hin & ->)|(second & Hin & ->)].
  - unfold minuteChoices in Hin. apply filter_In in Hin.
    destruct Hin as [_ Hrange].
    apply andb_true_iff in Hrange. destruct Hrange as [H0 H60].
    apply Z.leb_le in H0, H60.
    apply Hclamp; lia.
  - unfold secondChoices in Hin. apply filter_In in Hin.
    destruct Hin as [_ Hrange].
    apply andb_true_iff in Hrange. destruct Hrange as [H0 H60].
    apply Z.leb_le in H0. apply Z.ltb_lt in H60.
    apply Hclamp; lia.
Qed.

Lemma picker_press_in_range_witness :
  0 <= 30 <= 3600
  /\ 0 <= fst (1, 10) <= 60
  /\ 0 <= snd (1, 10) < 60
  /\ In 0 (minuteChoices (1, 10))
  /\ (0 <= fst (handleMinutesChange 30 (1, 10) 0) <= 60
      /\ 0 <= snd (handleMinutesChange 30 (1, 10) 0) < 60
      /\ 30 <= fst (handleMinutesChange 30 (1, 10) 0) * 60
               + snd (handleMinutesChange 30 (1, 10) 0)).
Proof.
  assert (Hmin : 0 <= 30 <= 3600) by lia.
  assert (Hm : 0 <= fst (1, 10) <= 60) by (simpl; lia).
  assert (Hs : 0 <= snd (1, 10) < 60) by (simpl; lia).
  assert (Hin : In 0 (minuteChoices (1, 10))) by (simpl; auto).
  split; [exact Hmin|]. split; [exact Hm|]. split; [exact Hs|].
  split; [exact Hin|].
  apply (picker_press_in_range 30 (1, 10) Hmin Hm Hs).
  left. exists 0. split; [exact Hin|reflexivity].
Defined.

(** * The settings screen *)

(** X12. The settings screen keeps the configuration valid: from settings
    with a focus duration of at least 30, a break duration in 0..3600 and a
    loop count in 1..9, such as those the home screen starts from, any
    sequence of slider moves, loop button presses and toggles yields
    settings with the same bounds, whatever value the focus slider
    delivers. *)
Theorem settings_screen_keeps_valid (events : list SettingsEvent) :
  forall settings,
    30 <= focusDuration settings ->
    0 <= breakDuration settings <= 3600 ->
    1 <= loops settings <= 9 ->
    Forall rendered events ->
    30 <= focusDuration (fold_left onSettingsEvent events settings)
    /\ 0 <= breakDuration (fold_left onSettingsEvent events settings) <= 3600
    /\ 1 <= loops (fold_left onSettingsEvent events settings) <= 9.
Proof.
  induction events as [|e events IH]; intros settings HF HB HL Hev; simpl.
  - auto.
  - inversion Hev as [|e' events' He Hrest]; subst.
    apply IH; try assumption; destruct e; simpl in *; lia.
Qed.

Lemma settings_screen_keeps_valid_witness :
  let events := [FocusSlider 0; LoopButton 9; BreakSlider 0; PrepToggle true] in
  let settings := fold_left onSettingsEvent events homeScreenSettings in
  30 <= focusDuration homeScreenSettings
  /\ 0 <= breakDuration homeScreenSettings <= 3600
  /\ 1 <= loops homeScreenSettings <= 9
  /\ Forall rendered events
  /\ (30 <= focusDuration settings
      /\ 0 <= breakDuration settings <= 3600
      /\ 1 <= loops settings <= 9).
Proof.
  intros events settings.
  assert (HF : 30 <= focusDuration homeScreenSettings) by (simpl; lia).
  assert (HB : 0 <= breakDuration homeScreenSettings <= 3600) by (simpl; lia).
  assert (HL : 1 <= loops homeScreenSettings <= 9) by (simpl; lia).
  assert (Hev : Forall rendered events).
  { repeat constructor; simpl; auto 12; lia. }
  split; [exact HF|]. split; [exact HB|]. split; [exact HL|].
  split; [exact Hev|].
  exact (settings_screen_keeps_valid events homeScreenSettings HF HB HL Hev).
Defined.

(** * Capybaras *)

Lemma includes_In (arr : list string) (x : string) :
  includes arr x = true <-> In x arr.
Proof.
  unfold includes. rewrite existsb_exists. split.
  - intros (y & Hin & Heq). apply String.eqb_eq in Heq. now subst.
  - intro Hin. exists x. split; [exact Hin|apply String.eqb_refl].
Qed.



(** Called from the render of the state at hand, the callback is
    [unlockCapybara]. *)
Lemma unlockCapybaraFrom_same (capybaraId : string) (currentCoins : Z)
    (st : UseCapybaraAnimations.HookState) :
  UseCapybaraAnimations.unlockCapybaraFrom st capybaraId currentCoins st
  = UseCapybaraAnimations.unlockCapybara capybaraId currentCoins st.
Proof. reflexivity. Qed.

(** Two unlock calls from one render append the capybara twice: the second
    call still reads the list that the render captured. *)
Example double_unlock_from_one_render :
  UseCapybaraAnimations.unlockedCapybaras
    (UseCapybaraAnimations.runCalls
       [UseCapybaraAnimations.initialState]
       UseCapybaraAnimations.initialState
       [ (0%nat, UseCapybaraAnimations.Unlock "fighting-capy" 100);
         (0%nat, UseCapybaraAnimations.Unlock "fighting-capy" 100) ])
  = ["basic-capy"; "fighting-capy"; "fighting-capy"]%string.
Proof. reflexivity. Qed.

Lemma callFrom_grows (seen st : UseCapybaraAnimations.HookState)
    (c : UseCapybaraAnimations.Call) :
  incl (UseCapybaraAnimations.unlockedCapybaras st)
    (UseCapybaraAnimations.unlockedCapybaras
       (UseCapybaraAnimations.callFrom seen st c)).
Proof.
  destruct c as [capybaraId currentCoins|capybaraId]; simpl.
  - unfold UseCapybaraAnimations.unlockCapybaraFrom.
    destruct (CapybaraAnimations.getCapybaraById capybaraId); simpl;
      [|apply incl_refl].
    destruct (includes (UseCapybaraAnimations.unlockedCapybaras seen)
                capybaraId); simpl; [apply incl_refl|].
    destruct (negb (CapybaraAnimations.canUnlockCapybara capybaraId
                      currentCoins)); simpl; [apply incl_refl|].
    apply incl_appl, incl_refl.
  - unfold UseCapybaraAnimations.selectCapybaraFrom.
    destruct (negb (includes (UseCapybaraAnimations.unlockedCapybaras seen)
                      capybaraId)); simpl; apply incl_refl.
Qed.

Lemma callFrom_keeps_selection_unlocked
    (seen st : UseCapybaraAnimations.HookState)
    (c : UseCapybaraAnimations.Call) :
  incl (UseCapybaraAnimations.unlockedCapybaras seen)
    (UseCapybaraAnimations.unlockedCapybaras st) ->
  In (UseCapybaraAnimations.selectedCapybaraId st)
    (UseCapybaraAnimations.unlockedCapybaras st)
  /\ Forall (fun i => CapybaraAnimations.getCapybaraById i <> None)
       (UseCapybaraAnimations.unlockedCapybaras st) ->
  In (UseCapybaraAnimations.selectedCapybaraId
        (UseCapybaraAnimations.callFrom seen st c))
    (UseCapybaraAnimations.unlockedCapybaras
       (UseCapybaraAnimations.callFrom seen st c))
  /\ Forall (fun i => CapybaraAnimations.getCapybaraById i <> None)
       (UseCapybaraAnimations.unlockedCapybaras
          (UseCapybaraAnimations.callFrom seen st c)).
Proof.
  intros Hseen [Hsel Hknown].
  destruct c as [capybaraId currentCoins|capybaraId]; simpl.
  - unfold UseCapybaraAnimations.unlockCapybaraFrom.
    destruct (CapybaraAnimations.getCapybaraById capybaraId) as [capy|]
      eqn:Hget; simpl; [|auto].
    destruct (includes (UseCapybaraAnimations.unlockedCapybaras seen)
                capybaraId); simpl; [auto|].
    destruct (negb (CapybaraAnimations.canUnlockCapybara capybaraId
                      currentCoins)); simpl; [auto|].
    split.
    + apply in_or_app. left. exact Hsel.
    + apply Forall_app. split; [exact Hknown|].
      constructor; [congruence|constructor].
  - unfold UseCapybaraAnimations.selectCapybaraFrom.
    destruct (includes (UseCapybaraAnimations.unlockedCapybaras seen)
                capybaraId) eqn:Hinc; simpl; [|auto].
    apply includes_In in Hinc. split; [|exact Hknown].
    apply Hseen. exact Hinc.
Qed.

(** X14. From the hook's initial state, after any run of [unlockCapybara]
    and [selectCapybara] calls, each through a callback of any earlier
    render, the selected capybara is in the unlocked list and everything in
    that list is a capybara of the table.  (The list can hold a capybara
    twice, as the example above shows.) *)
Theorem capybara_selection_is_unlocked
    (calls : list (nat * UseCapybaraAnimations.Call)) :
  let st :=
    UseCapybaraAnimations.runCalls
      [UseCapybaraAnimations.initialState]
      UseCapybaraAnimations.initialState calls in
  In (UseCapybaraAnimations.selectedCapybaraId st)
    (UseCapybaraAnimations.unlockedCapybaras st)
  /\ Forall (fun i => CapybaraAnimations.getCapybaraById i <> None)
       (UseCapybaraAnimations.unlockedCapybaras st).
Proof.
  cbv zeta.
  assert (Hgen : forall states st,
    Forall (fun seen =>
              incl (UseCapybaraAnimations.unlockedCapybaras seen)
                (UseCapybaraAnimations.unlockedCapybaras st)) states ->
    In (UseCapybaraAnimations.selectedCapybaraId st)
      (UseCapybaraAnimations.unlockedCapybaras st)
    /\ Forall (fun i => CapybaraAnimations.getCapybaraById i <> None)
         (UseCapybaraAnimations.unlockedCapybaras st) ->
    In (UseCapybaraAnimations.selectedCapybaraId
          (UseCapybaraAnimations.runCalls states st calls))
      (UseCapybaraAnimations.unlockedCapybaras
         (UseCapybaraAnimations.runCalls states st calls))
    /\ Forall (fun i => CapybaraAnimations.getCapybaraById i <> None)
         (UseCapybaraAnimations.unlockedCapybaras
            (UseCapybaraAnimations.runCalls states st calls))).
  { induction calls as [|[k c] calls IH]; intros states st Hstates Hinv;
      [exact Hinv|].
    simpl.
    assert (Hseen :
      incl (UseCapybaraAnimations.unlockedCapybaras (nth k states st))
        (UseCapybaraAnimations.unlockedCapybaras st)).
    { destruct (Nat.lt_ge_cases k (List.length states)) as [Hk|Hk].
      - rewrite Forall_forall in Hstates. apply Hstates.
        apply nth_In. exact Hk.
      - rewrite nth_overflow by exact Hk. apply incl_refl. }
    apply IH.
    - apply Forall_app. split.
      + rewrite Forall_forall in *. intros seen Hin.
        eapply incl_tran; [apply Hstates; exact Hin|apply callFrom_grows].
      + constructor; [apply incl_refl|constructor].
    - apply callFrom_keeps_selection_unlocked; assumption. }
  apply Hgen.
  - constructor; [apply incl_refl|constructor].
  - simpl. split; [auto|]. repeat constructor. discriminate.
Qed.

(** * Companions *)

(** X15. Whatever identifiers are passed as unlocked, every companion of
    the table is listed by exactly one of [getUnlockedCompanions] and
    [getLockedCompanions]. *)
Theorem companion_locked_or_unlocked (unlockedIds : list string)
    (companion : Companions.Companion) :
  In companion Companions.COMPANIONS ->
  (In companion (Companions.getUnlockedCompanions unlockedIds)
   <-> ~ In companion (Companions.getLockedCompanions unlockedIds)).
Proof.
  intro Hin.
  unfold Companions.getUnlockedCompanions, Companions.getLockedCompanions.
  rewrite !filter_In.
  assert (Hcost : 0 <= Companions.unlockCost companion).
  { simpl in Hin. destruct Hin as [<-|[<-|[<-|[<-|[]]]]]; simpl; lia. }
  destruct (includes unlockedIds (Companions.id companion)); simpl.
  - rewrite orb_true_r, andb_false_r. split; [intros _ [_ H]|]; auto;
      discriminate.
  - rewrite orb_false_r, andb_true_r. rewrite Z.gtb_ltb.
    destruct (Companions.unlockCost companion =? 0) eqn:E.
    + apply Z.eqb_eq in E. rewrite E. simpl.
      split; [intros _ [_ H]; discriminate|auto].
    + apply Z.eqb_neq in E.
      assert (E' : (0 <? Companions.unlockCost companion) = true)
        by (apply Z.ltb_lt; lia).
      rewrite E'. split; [intros [_ H]; discriminate|].
      intro H. exfalso. apply H. auto.
Qed.

Lemma companion_locked_or_unlocked_witness :
  let fighting := nth 1 Companions.COMPANIONS
                    (hd (nth 0 Companions.COMPANIONS
                           (Companions.Build_Companion "" "" "" 0 true
                              (Companions.Build_Assets "" "" "" None)))
                       Companions.COMPANIONS) in
  In fighting Companions.COMPANIONS
  /\ (In fighting (Companions.getUnlockedCompanions ["fighting-capy"%string])
      <-> ~ In fighting
              (Companions.getLockedCompanions ["fighting-capy"%string])).
Proof.
  intro fighting.
  assert (Hin : In fighting Companions.COMPANIONS)
    by (right; left; reflexivity).
  split; [exact Hin|].
  exact (companion_locked_or_unlocked ["fighting-capy"%string] fighting Hin).
Defined.

(** X16. On every reachable session the companion shows its celebrating
    asset exactly in phase Completed, also after the completed session was
    started again; in a break it shows its idle asset; and in preparation or
    focus it shows its working asset while the session runs and its idle
    asset otherwise. *)
Theorem companion_animation_by_phase settings s
    (companion : Companions.Companion) :
  reachable settings s ->
  Companions.getCompanionAnimation companion (state s) (phase s)
  = match phase s with
    | completed => Companions.celebrating (Companions.assets companion)
    | break => Companions.idle (Companions.assets companion)
    | prep | focus =>
        if TimerState_eqb (state s) running
        then Companions.working (Companions.assets companion)
        else Companions.idle (Companions.assets companion)
    end.
Proof.
  intro Hs. pose proof (state_completed_phase settings s Hs) as Hinv.
  unfold Companions.getCompanionAnimation.
  destruct (state s), (phase s); simpl; try reflexivity;
    specialize (Hinv eq_refl); discriminate.
Qed.

Lemma companion_animation_by_phase_witness :
  let s := run scenarioE (startThenTicks 150 ++ [Start])
             (initialSession scenarioE) in
  let basic := hd (Companions.Build_Companion "" "" "" 0 true
                     (Companions.Build_Assets "" "" "" None))
                 Companions.COMPANIONS in
  reachable scenarioE s
  /\ state s = running
  /\ Companions.getCompanionAnimation basic (state s) (phase s)
     = "basic-capy-celebrating.gif"%string.
Proof.
  intros s basic.
  assert (Hs : reachable scenarioE s) by apply reachable_from_init.
  split; [exact Hs|]. split; [reflexivity|].
  rewrite (companion_animation_by_phase scenarioE s basic Hs). reflexivity.
Defined.

(** X17. The hook does not pay the companion table's rate: for a focus
    phase ended after [timeElapsed] seconds, [moveToNextPhase] awards twice
    what [calculateCoinsEarned] gives for the same seconds, or one more. *)
Theorem hook_pays_twice_the_minute_rate settings s :
  phase s = focus ->
  0 <= timeElapsed s ->
  2 * Companions.calculateCoinsEarned (timeElapsed s)
  <= coinsEarned (moveToNextPhase settings false s) - coinsEarned s
  <= 2 * Companions.calculateCoinsEarned (timeElapsed s) + 1.
Proof.
  intros Hp He. rewrite moveToNextPhase_coinsEarned, Hp.
  unfold Companions.calculateCoinsEarned.
  pose proof (Z.div_mod (timeElapsed s) 30 ltac:(lia)).
  pose proof (Z.mod_pos_bound (timeElapsed s) 30 ltac:(lia)).
  pose proof (Z.div_mod (timeElapsed s) 60 ltac:(lia)).
  pose proof (Z.mod_pos_bound (timeElapsed s) 60 ltac:(lia)).
  lia.
Qed.

Lemma hook_pays_twice_the_minute_rate_witness :
  let s := run longFocusSettings (startThenTicks 149)
             (initialSession longFocusSettings) in
  phase s = focus
  /\ 0 <= timeElapsed s
  /\ 2 * Companions.calculateCoinsEarned (timeElapsed s)
     <= coinsEarned (moveToNextPhase longFocusSettings false s)
        - coinsEarned s
     <= 2 * Companions.calculateCoinsEarned (timeElapsed s) + 1.
Proof.
  intro s.
  assert (Hp : phase s = focus) by reflexivity.
  assert (He : 0 <= timeElapsed s) by (vm_compute; discriminate).
  split; [exact Hp|]. split; [exact He|].
  exact (hook_pays_twice_the_minute_rate longFocusSettings s Hp He).
Defined.

(** * Categories *)

Section CategoryLists.

Import Categories UseCategories.

Lemma find_existsb {A : Type} (p : A -> bool) (l : list A) :
  find p l <> None <-> existsb p l = true.
Proof.
  induction l as [|x l IH]; simpl.
  - split; [congruence|discriminate].
  - destruct (p x); simpl; [split; [reflexivity|discriminate]|exact IH].
Qed.

Lemma existsb_map_same {A : Type} (p : A -> bool) (f : A -> A) (l : list A) :
  (forall x, p (f x) = p x) -> existsb p (map f l) = existsb p l.
Proof.
  intro H. induction l as [|x l IH]; simpl; [reflexivity|].
  now rewrite H, IH.
Qed.

Lemma existsb_filter_keeps {A : Type} (p q : A -> bool) (l : list A) :
  (forall x, p x = true -> q x = true) ->
  existsb p (filter q l) = existsb p l.
Proof.
  intro H. induction l as [|x l IH]; simpl; [reflexivity|].
  destruct (q x) eqn:Hq; simpl.
  - now rewrite IH.
  - destruct (p x) eqn:Hp; [apply H in Hp; congruence|exact IH].
Qed.

Lemma find_filter_keeps {A : Type} (p q : A -> bool) (l : list A) :
  (forall x, p x = true -> q x = true) ->
  find p (filter q l) = find p l.
Proof.
  intro H. induction l as [|x l IH]; simpl; [reflexivity|].
  destruct (q x) eqn:Hq; simpl.
  - destruct (p x); [reflexivity|exact IH].
  - destruct (p x) eqn:Hp; [apply H in Hp; congruence|exact IH].
Qed.

Lemma find_filter_drops {A : Type} (p q : A -> bool) (l : list A) :
  (forall x, p x = true -> q x = false) ->
  find p (filter q l) = None.
Proof.
  intro H. induction l as [|x l IH]; simpl; [reflexivity|].
  destruct (q x) eqn:Hq; simpl; [|exact IH].
  destruct (p x) eqn:Hp; [apply H in Hp; congruence|exact IH].
Qed.

Lemma selectionExists_getSelectedCategory (st : HookState) :
  selectionExists st <-> getSelectedCategory st <> None.
Proof. unfold selectionExists, getSelectedCategory. now rewrite find_existsb. Qed.

Lemma callFrom_keeps_selection (seen st : HookState) (c : Call) :
  keepsId c -> upToDate seen st c ->
  selectionExists st -> selectionExists (callFrom seen st c).
Proof.
  unfold selectionExists. intros Hkeep Hup Hsel.
  destruct c as [idClock createdClock newName colorIndex
                |categoryId updates|categoryId|categoryId|categoryId
                |idClock createdClock newName colorIndex]; simpl.
  - rewrite existsb_app, Hsel. reflexivity.
  - rewrite existsb_map_same; [exact Hsel|].
    intro cat. destruct (String.eqb (id cat) categoryId); [|reflexivity].
    simpl in Hkeep. unfold applyUpdates. simpl. rewrite Hkeep. reflexivity.
  - unfold deleteCategoryFrom.
    destruct (List.length (categories seen) <=? 1)%nat; [exact Hsel|].
    destruct (String.eqb (selectedCategoryId seen) categoryId) eqn:E;
      [exact Hsel|]. simpl.
    simpl in Hup. rewrite Hup in E.
    rewrite existsb_filter_keeps; [exact Hsel|].
    intros cat Hcat. apply String.eqb_eq in Hcat. rewrite Hcat, E.
    reflexivity.
  - unfold selectCategoryFrom.
    destruct (find (fun cat => String.eqb (id cat) categoryId)
                (categories seen)) eqn:Hfind; simpl; [|exact Hsel].
    apply find_existsb. apply Hup. congruence.
  - rewrite existsb_map_same; [exact Hsel|].
    intro cat. destruct (String.eqb (id cat) categoryId); reflexivity.
  - unfold handleCreateCategoryFrom.
    destruct (isValid (validateCategoryName newName seen)); simpl;
      [|exact Hsel].
    unfold selectCategoryFrom.
    destruct (find _ (categories seen)); simpl.
    + rewrite existsb_app. simpl. rewrite String.eqb_refl.
      now rewrite orb_true_r.
    + rewrite existsb_app, Hsel. reflexivity.
Qed.

End CategoryLists.

(** A render that is the state at hand is up to date for every call. *)
Lemma upToDate_same (st : UseCategories.HookState) (c : UseCategories.Call) :
  UseCategories.upToDate st st c.
Proof. destruct c; simpl; auto. Qed.

(** X18. The selected category is not lost by calls from up-to-date
    renders.  Take a state whose selected identifier names one of its
    categories and any run of creations, deletions, selections, session-count
    increments, creations through the modal and updates, each through a
    callback of some earlier render.  If the updates carry no identifier,
    every deletion comes from a render that saw the selection as it is when
    the deletion runs, and every selection names an identifier that is still
    among the categories when its render saw it there, then
    [getSelectedCategory] still finds a category at the end. *)
Theorem selected_category_survives
    (calls : list (nat * UseCategories.Call)) :
  forall states st,
    UseCategories.timely states st calls ->
    UseCategories.getSelectedCategory st <> None ->
    UseCategories.getSelectedCategory
      (UseCategories.runCalls states st calls) <> None.
Proof.
  induction calls as [|[k c] calls IH]; intros states st Htimely Hsel;
    [exact Hsel|].
  simpl in Htimely. destruct Htimely as (Hkeep & Hup & Hrest). simpl.
  apply IH; [exact Hrest|].
  apply selectionExists_getSelectedCategory.
  apply callFrom_keeps_selection; [exact Hkeep|exact Hup|].
  now apply selectionExists_getSelectedCategory.
Qed.

Lemma selected_category_survives_witness :
  let st0 := UseCategories.loadedState 0 in
  let calls :=
    [ (0%nat, UseCategories.Delete "study");
      (0%nat, UseCategories.ModalCreate 17 18 "  Reading " 7);
      (2%nat, UseCategories.Select "custom_17");
      (3%nat, UseCategories.Delete "work");
      (0%nat, UseCategories.Increment "study") ] in
  UseCategories.timely [st0] st0 calls
  /\ UseCategories.getSelectedCategory st0 <> None
  /\ UseCategories.selectedCategoryId
       (UseCategories.runCalls [st0] st0 calls) = "custom_17"%string
  /\ UseCategories.getSelectedCategory
       (UseCategories.runCalls [st0] st0 calls) <> None.
Proof.
  intros st0 calls.
  assert (Htimely : UseCategories.timely [st0] st0 calls).
  { simpl. repeat split; try exact I; try reflexivity.
    vm_compute. discriminate. }
  assert (Hsel : UseCategories.getSelectedCategory st0 <> None)
    by (vm_compute; discriminate).
  split; [exact Htimely|]. split; [exact Hsel|]. split; [reflexivity|].
  exact (selected_category_survives calls [st0] st0 Htimely Hsel).
Defined.

(** X19. [deleteCategory], through the callback of a render that saw
    [seen] and run on the state [st], answers [true] exactly when that render
    saw more than one category and a selected identifier other than the one
    to delete.  When it answers [false] nothing changes; when it answers
    [true], also for an identifier that names no category, no category with
    that identifier is left and every other identifier is looked up as
    before.  The selected category is untouched whenever the selection of
    [st] is not the identifier deleted, in particular when the render saw the
    selection of [st]; a render that saw an older selection deletes the
    selected category, and [getSelectedCategory] then finds nothing. *)
Theorem deleteCategory_effect (categoryId : string)
    (seen st : UseCategories.HookState) :
  let st' := fst (UseCategories.deleteCategoryFrom seen categoryId st) in
  let ok := snd (UseCategories.deleteCategoryFrom seen categoryId st) in
  (ok = true <->
   (1 < List.length (UseCategories.categories seen))%nat
   /\ UseCategories.selectedCategoryId seen <> categoryId)
  /\ (ok = false -> st' = st)
  /\ (ok = true ->
      UseCategories.getCategoryById categoryId st' = None
      /\ forall other, other <> categoryId ->
           UseCategories.getCategoryById other st'
           = UseCategories.getCategoryById other st)
  /\ (UseCategories.selectedCategoryId st <> categoryId ->
      UseCategories.getSelectedCategory st'
      = UseCategories.getSelectedCategory st)
  /\ (UseCategories.selectedCategoryId seen
      = UseCategories.selectedCategoryId st ->
      UseCategories.getSelectedCategory st'
      = UseCategories.getSelectedCategory st)
  /\ (ok = true -> UseCategories.selectedCategoryId st = categoryId ->
      UseCategories.getSelectedCategory st' = None).
Proof.
  cbv zeta.
  assert (Hkeep :
    UseCategories.selectedCategoryId st <> categoryId ->
    find (fun cat =>
            String.eqb (Categories.id cat)
              (UseCategories.selectedCategoryId st))
      (filter (fun cat => negb (String.eqb (Categories.id cat) categoryId))
         (UseCategories.categories st))
    = UseCategories.getSelectedCategory st).
  { intro Hneq. unfold UseCategories.getSelectedCategory.
    apply find_filter_keeps. intros cat Hcat.
    apply String.eqb_eq in Hcat. rewrite Hcat.
    apply negb_true_iff, String.eqb_neq. exact Hneq. }
  unfold UseCategories.deleteCategoryFrom.
  destruct (List.length (UseCategories.categories seen) <=? 1)%nat eqn:Hlen;
    simpl.
  - apply Nat.leb_le in Hlen.
    repeat split; try congruence; try discriminate. lia.
  - apply Nat.leb_gt in Hlen.
    destruct (String.eqb (UseCategories.selectedCategoryId seen) categoryId)
      eqn:Hsel; simpl.
    + apply String.eqb_eq in Hsel.
      repeat split; try congruence; try discriminate. tauto.
    + pose proof Hsel as Hneq. apply String.eqb_neq in Hneq.
      split; [split; auto|]. split; [discriminate|]. split.
      { intros _. split.
        - unfold UseCategories.getCategoryById. simpl.
          apply find_filter_drops. intros cat ->. reflexivity.
        - intros other Hother. unfold UseCategories.getCategoryById. simpl.
          apply find_filter_keeps. intros cat Hcat.
          apply String.eqb_eq in Hcat. rewrite Hcat.
          apply negb_true_iff, String.eqb_neq. exact Hother. }
      split; [exact Hkeep|]. split.
      { intro Hsame. apply Hkeep. congruence. }
      intros _ Hstale. unfold UseCategories.getSelectedCategory. simpl.
      rewrite Hstale. apply find_filter_drops. intros cat ->. reflexivity.
Qed.

(** A selection and a deletion of the same category from one render: the
    deletion still reads the selection that the render captured, and the
    selected category is gone. *)
Example select_then_delete_from_one_render :
  let st0 := UseCategories.loadedState 0 in
  let st :=
    UseCategories.runCalls [st0] st0
      [ (0%nat, UseCategories.Select "work");
        (0%nat, UseCategories.Delete "work") ] in
  UseCategories.selectedCategoryId st = "work"%string
  /\ UseCategories.getSelectedCategory st = None.
Proof. split; reflexivity. Qed.

(** X20. The colour of a created category wraps around the colour table:
    for a colour index that is not negative it is one of the six table
    colours and the same as for the index plus six; for a negative index
    that is not a multiple of six the category gets no colour at all. *)
Theorem createCategory_color (idClock createdClock : Z) (newName : string)
    (colorIndex : Z) (st : UseCategories.HookState) :
  let colorOf i :=
    Categories.color
      (snd (UseCategories.createCategory idClock createdClock newName i st)) in
  (0 <= colorIndex ->
   (exists c, colorOf colorIndex = Some c /\ In c Categories.CATEGORY_COLORS)
   /\ colorOf (colorIndex + 6) = colorOf colorIndex)
  /\ (colorIndex < 0 -> Z.rem colorIndex 6 <> 0 -> colorOf colorIndex = None).
Proof.
  cbv zeta. unfold UseCategories.createCategory. simpl.
  change (Z.pos 6) with 6. split.
  - intro Hi. rewrite !Z.rem_mod_nonneg by lia.
    replace ((colorIndex + 6) mod 6) with (colorIndex mod 6)
      by (rewrite <- (Z.mod_add colorIndex 1 6) by lia; f_equal; lia).
    split; [|reflexivity].
    pose proof (Z.mod_pos_bound colorIndex 6 ltac:(lia)) as Hmod.
    unfold Array_at.
    destruct (colorIndex mod 6 <? 0) eqn:E; [apply Z.ltb_lt in E; lia|].
    destruct (nth_error Categories.CATEGORY_COLORS
                (Z.to_nat (colorIndex mod 6))) as [c|] eqn:Hnth.
    + exists c. split; [reflexivity|].
      exact (nth_error_In Categories.CATEGORY_COLORS _ Hnth).
    + apply nth_error_None in Hnth.
      change (List.length Categories.CATEGORY_COLORS) with 6%nat in Hnth.
      exfalso. lia.
  - intros Hneg Hrem.
    pose proof (Z.rem_bound_pos_neg colorIndex 6 ltac:(lia) ltac:(lia)).
    unfold Array_at.
    destruct (Z.rem colorIndex 6 <? 0) eqn:E; [reflexivity|].
    apply Z.ltb_ge in E. lia.
Qed.

Lemma createCategory_color_witness :
  let colorOf i :=
    Categories.color
      (snd (UseCategories.createCategory 17 18 "reading" i
              (UseCategories.loadedState 0))) in
  0 <= 7
  /\ colorOf 7 = Some "#FF6B6B"%string
  /\ colorOf (7 + 6) = colorOf 7
  /\ (-1 < 0 /\ Z.rem (-1) 6 <> 0 /\ colorOf (-1) = None).
Proof.
  intro colorOf.
  destruct (createCategory_color 17 18 "reading" 7
              (UseCategories.loadedState 0)) as [Hwrap _].
  destruct (createCategory_color 17 18 "reading" (-1)
              (UseCategories.loadedState 0)) as [_ Hnone].
  assert (H7 : 0 <= 7) by lia.
  assert (Hneg : -1 < 0) by lia.
  assert (Hrem : Z.rem (-1) 6 <> 0) by (vm_compute; discriminate).
  split; [exact H7|]. split; [reflexivity|].
  split; [exact (proj2 (Hwrap H7))|].
  split; [exact Hneg|]. split; [exact Hrem|].
  exact (Hnone Hneg Hrem).
Defined.

Lemma toLowerChar_idempotent (c : ascii) :
  toLowerChar (toLowerChar c) = toLowerChar c.
Proof. destruct c as [[] [] [] [] [] [] [] []]; reflexivity. Qed.

Lemma toLowerCase_idempotent (s : string) :
  toLowerCase (toLowerCase s) = toLowerCase s.
Proof.
  induction s as [|c s IH]; simpl; [reflexivity|].
  now rewrite toLowerChar_idempotent, IH.
Qed.

Lemma handleCreateCategory_categories (idClock createdClock : Z)
    (newName : string) (colorIndex : Z) (st : UseCategories.HookState) :
  UseCategories.categories
    (UseCategories.handleCreateCategory idClock createdClock newName
       colorIndex st)
  = if UseCategories.isValid (UseCategories.validateCategoryName newName st)
    then UseCategories.categories st
         ++ [snd (UseCategories.createCategory idClock createdClock newName
                    colorIndex st)]
    else UseCategories.categories st.
Proof.
  unfold UseCategories.handleCreateCategory.
  destruct (UseCategories.isValid
              (UseCategories.validateCategoryName newName st)); simpl;
    [|reflexivity].
  unfold UseCategories.selectCategoryFrom.
  destruct (find _ (UseCategories.categories st)); reflexivity.
Qed.

(** What an accepted name is like. *)
Lemma validateCategoryName_accepts (newName : string)
    (st : UseCategories.HookState) :
  UseCategories.isValid (UseCategories.validateCategoryName newName st) = true ->
  (1 <= String.length (toLowerCase (trim newName)) <= 20)%nat
  /\ ~ In (toLowerCase (trim newName)) (UseCategories.lowerNames st).
Proof.
  unfold UseCategories.validateCategoryName.
  destruct (String.length (toLowerCase (trim newName)) =? 0)%nat eqn:E0;
    simpl; [discriminate|].
  destruct (20 <? String.length (toLowerCase (trim newName)))%nat eqn:E20;
    simpl; [discriminate|].
  destruct (existsb _ (UseCategories.categories st)) eqn:Ex;
    simpl; [discriminate|].
  intros _. apply Nat.eqb_neq in E0. apply Nat.ltb_ge in E20.
  split; [lia|].
  unfold UseCategories.lowerNames. rewrite in_map_iff.
  intros (cat & Hname & Hin).
  assert (Htrue : existsb
            (fun cat0 =>
               String.eqb (toLowerCase (Categories.name cat0))
                 (toLowerCase (trim newName)))
            (UseCategories.categories st) = true).
  { apply existsb_exists. exists cat. split; [exact Hin|].
    apply String.eqb_eq. exact Hname. }
  congruence.
Qed.

(** What a rejected name is like. *)
Lemma validateCategoryName_rejects (newName : string)
    (st : UseCategories.HookState) :
  String.length (toLowerCase (trim newName)) = 0%nat
  \/ (20 < String.length (toLowerCase (trim newName)))%nat
  \/ In (toLowerCase (trim newName)) (UseCategories.lowerNames st) ->
  UseCategories.isValid (UseCategories.validateCategoryName newName st)
  = false.
Proof.
  intro Hbad. unfold UseCategories.validateCategoryName.
  destruct (String.length (toLowerCase (trim newName)) =? 0)%nat eqn:E0;
    simpl; [reflexivity|].
  destruct (20 <? String.length (toLowerCase (trim newName)))%nat eqn:E20;
    simpl; [reflexivity|].
  apply Nat.eqb_neq in E0. apply Nat.ltb_ge in E20.
  destruct Hbad as [H0|[H20|Hin]]; try lia.
  unfold UseCategories.lowerNames in Hin. rewrite in_map_iff in Hin.
  destruct Hin as (cat & Hname & Hin).
  assert (Htrue : existsb
            (fun cat0 =>
               String.eqb (toLowerCase (Categories.name cat0))
                 (toLowerCase (trim newName)))
            (UseCategories.categories st) = true).
  { apply existsb_exists. exists cat. split; [exact Hin|].
    apply String.eqb_eq. exact Hname. }
  rewrite Htrue. reflexivity.
Qed.

(** X21. Creating categories through the modal keeps their names apart.
    Let the categories have names that are pairwise different up to letter
    case, each of 1 to 20 characters.  A typed name that, trimmed and
    lower-cased, is empty, longer than 20 characters or equal up to letter
    case to the name of a category is rejected and [handleCreateCategory]
    changes nothing; any other name is accepted and exactly one category is
    appended, whose name is the typed name trimmed and lower-cased, with
    session count 0, the identifier made from the clock, the creation time
    given and the colour of the chosen index.  In both cases the names are again pairwise different up to
    letter case and of 1 to 20 characters. *)
Theorem modal_keeps_names_distinct (idClock createdClock : Z)
    (newName : string) (colorIndex : Z) (st : UseCategories.HookState) :
  NoDup (UseCategories.lowerNames st) ->
  Forall (fun cat => (1 <= String.length (Categories.name cat) <= 20)%nat)
    (UseCategories.categories st) ->
  let stored := toLowerCase (trim newName) in
  let st' :=
    UseCategories.handleCreateCategory idClock createdClock newName
      colorIndex st in
  (String.length stored = 0%nat
   \/ (20 < String.length stored)%nat
   \/ In stored (UseCategories.lowerNames st) ->
   st' = st)
  /\ ((1 <= String.length stored <= 20)%nat ->
      ~ In stored (UseCategories.lowerNames st) ->
      exists cat,
        UseCategories.categories st' = UseCategories.categories st ++ [cat]
        /\ Categories.name cat = stored
        /\ Categories.id cat = ("custom_" ++ Number_toString idClock)%string
        /\ Categories.createdAt cat = createdClock
        /\ Categories.sessionCount cat = 0
        /\ Categories.color cat
           = Array_at Categories.CATEGORY_COLORS (Z.rem colorIndex 6))
  /\ NoDup (UseCategories.lowerNames st')
  /\ Forall (fun cat => (1 <= String.length (Categories.name cat) <= 20)%nat)
       (UseCategories.categories st').
Proof.
  intros Hnodup Hlen. cbv zeta. split; [|split].
  - intro Hbad. apply validateCategoryName_rejects in Hbad.
    unfold UseCategories.handleCreateCategory. rewrite Hbad. reflexivity.
  - intros Hsize Hfresh.
    assert (Hvalid :
      UseCategories.isValid (UseCategories.validateCategoryName newName st)
      = true).
    { destruct (UseCategories.isValid
                  (UseCategories.validateCategoryName newName st)) eqn:E;
        [reflexivity|].
      unfold UseCategories.validateCategoryName in E.
      destruct (String.length (toLowerCase (trim newName)) =? 0)%nat eqn:E0;
        [apply Nat.eqb_eq in E0; lia|].
      destruct (20 <? String.length (toLowerCase (trim newName)))%nat eqn:E20;
        [apply Nat.ltb_lt in E20; lia|].
      simpl in E.
      destruct (existsb _ (UseCategories.categories st)) eqn:Ex;
        [|discriminate E].
      apply existsb_exists in Ex. destruct Ex as (cat & Hin & Heq).
      apply String.eqb_eq in Heq. exfalso. apply Hfresh.
      unfold UseCategories.lowerNames. apply in_map_iff.
      exists cat. split; assumption. }
    rewrite handleCreateCategory_categories, Hvalid.
    eexists. split; [reflexivity|]. simpl. repeat split.
  - unfold UseCategories.lowerNames.
    rewrite handleCreateCategory_categories.
    destruct (UseCategories.isValid
                (UseCategories.validateCategoryName newName st)) eqn:Hvalid;
      [|split; assumption].
    destruct (validateCategoryName_accepts newName st Hvalid)
      as [Hsize Hfresh].
    simpl. split.
    + rewrite map_app. simpl. rewrite toLowerCase_idempotent.
      apply NoDup_app; [exact Hnodup|repeat constructor; simpl; tauto|].
      intros x Hx [<-|[]]. contradiction.
    + apply Forall_app. split; [exact Hlen|].
      constructor; [simpl; exact Hsize|constructor].
Qed.

Lemma modal_keeps_names_distinct_witness :
  let st := UseCategories.loadedState 0 in
  let st' := UseCategories.handleCreateCategory 17 18 "  STUDY " 2 st in
  let st'' := UseCategories.handleCreateCategory 17 18 " Reading" 2 st in
  NoDup (UseCategories.lowerNames st)
  /\ Forall (fun cat => (1 <= String.length (Categories.name cat) <= 20)%nat)
       (UseCategories.categories st)
  /\ In (toLowerCase (trim "  STUDY ")) (UseCategories.lowerNames st)
  /\ st' = st
  /\ (exists cat,
        UseCategories.categories st'' = UseCategories.categories st ++ [cat]
        /\ Categories.name cat = "reading"%string
        /\ Categories.id cat = "custom_17"%string
        /\ Categories.createdAt cat = 18
        /\ Categories.sessionCount cat = 0
        /\ Categories.color cat = Some "#FFD93D"%string)
  /\ NoDup (UseCategories.lowerNames st'')
  /\ Forall (fun cat => (1 <= String.length (Categories.name cat) <= 20)%nat)
       (UseCategories.categories st'').
Proof.
  intros st st' st''.
  assert (Hnodup : NoDup (UseCategories.lowerNames st)).
  { repeat constructor; simpl; intuition discriminate. }
  assert (Hlen : Forall
            (fun cat => (1 <= String.length (Categories.name cat) <= 20)%nat)
            (UseCategories.categories st)).
  { repeat constructor; simpl; lia. }
  assert (Hdup : In (toLowerCase (trim "  STUDY "))
                   (UseCategories.lowerNames st)) by (left; reflexivity).
  destruct (modal_keeps_names_distinct 17 18 "  STUDY " 2 st Hnodup Hlen)
    as (Hrejected & _).
  destruct (modal_keeps_names_distinct 17 18 " Reading" 2 st Hnodup Hlen)
    as (_ & Haccepted & Hnames & Hsizes).
  split; [exact Hnodup|]. split; [exact Hlen|]. split; [exact Hdup|].
  split; [exact (Hrejected (or_intror (or_intror Hdup)))|].
  split.
  { apply Haccepted; [vm_compute; lia|].
    vm_compute. intuition discriminate. }
  split; [exact Hnames|exact Hsizes].
Defined.

(** X22. The modal does not select the category that it creates: the
    selection callback still looks through the categories of the render
    that preceded the creation, so when the new identifier was not in use
    the selected identifier stays what it was, while an accepted name is
    appended to the categories and a rejected one changes nothing. *)
Theorem modal_create_keeps_selection (idClock createdClock : Z)
    (newName : string) (colorIndex : Z) (st : UseCategories.HookState) :
  UseCategories.getCategoryById ("custom_" ++ Number_toString idClock) st
  = None ->
  let st' :=
    UseCategories.handleCreateCategory idClock createdClock newName
      colorIndex st in
  UseCategories.selectedCategoryId st' = UseCategories.selectedCategoryId st
  /\ (UseCategories.isValid (UseCategories.validateCategoryName newName st)
      = true ->
      UseCategories.categories st'
      = UseCategories.categories st
        ++ [snd (UseCategories.createCategory idClock createdClock newName
                   colorIndex st)])
  /\ (UseCategories.isValid (UseCategories.validateCategoryName newName st)
      = false -> st' = st).
Proof.
  intro Hfresh. cbv zeta. split; [|split].
  - unfold UseCategories.handleCreateCategory.
    destruct (UseCategories.isValid
                (UseCategories.validateCategoryName newName st));
      [|reflexivity].
    unfold UseCategories.createCategory, UseCategories.selectCategoryFrom.
    cbn [negb fst snd Categories.id].
    unfold UseCategories.getCategoryById in Hfresh. rewrite Hfresh.
    reflexivity.
  - intro Hvalid. rewrite handleCreateCategory_categories, Hvalid.
    reflexivity.
  - intro Hinvalid. unfold UseCategories.handleCreateCategory.
    rewrite Hinvalid. reflexivity.
Qed.

Lemma modal_create_keeps_selection_witness :
  let st := UseCategories.loadedState 0 in
  let st' := UseCategories.handleCreateCategory 17 18 " Reading" 2 st in
  UseCategories.getCategoryById ("custom_" ++ Number_toString 17) st = None
  /\ UseCategories.selectedCategoryId st' = "study"%string
  /\ UseCategories.getCategoryById "custom_17" st' <> None.
Proof.
  intros st st'.
  assert (Hfresh : UseCategories.getCategoryById
                     ("custom_" ++ Number_toString 17) st = None)
    by reflexivity.
  destruct (modal_create_keeps_selection 17 18 " Reading" 2 st Hfresh)
    as (Hsel & _ & _).
  split; [exact Hfresh|]. split; [exact Hsel|].
  vm_compute. discriminate.
Defined.

(** * What the timer shows *)

(** X23. In count-down mode, with a focus duration of at least 1, the text
    shown for a reachable session that is not completed is never 00:00: the
    phase changes on the tick that would bring the remaining time to 0. *)
Theorem countdown_never_shows_zero settings s :
  1 <= focusDuration settings ->
  countUp settings = false ->
  reachable settings s ->
  phase s <> completed ->
  formatTime (getDisplayTime settings s) <> "00:00"%string.
Proof.
  intros HF Hdown Hs Hp Hzero.
  destruct (time_invariant settings s HF Hs) as (_ & _ & _ & Hrem).
  specialize (Hrem Hp).
  unfold getDisplayTime in Hzero. rewrite Hdown in Hzero.
  change "00:00"%string with (formatTime 0) in Hzero.
  apply formatTime_inj in Hzero; lia.
Qed.

Lemma countdown_never_shows_zero_witness :
  let s := run defaultSettings (startThenTicks 59)
             (initialSession defaultSettings) in
  1 <= focusDuration defaultSettings
  /\ countUp defaultSettings = false
  /\ reachable defaultSettings s
  /\ phase s <> completed
  /\ formatTime (getDisplayTime defaultSettings s) = "00:01"%string
  /\ formatTime (getDisplayTime defaultSettings s) <> "00:00"%string.
Proof.
  intro s.
  assert (HF : 1 <= focusDuration defaultSettings) by (simpl; lia).
  assert (Hdown : countUp defaultSettings = false) by reflexivity.
  assert (Hs : reachable defaultSettings s) by apply reachable_from_init.
  assert (Hp : phase s <> completed) by (vm_compute; discriminate).
  split; [exact HF|]. split; [exact Hdown|]. split; [exact Hs|].
  split; [exact Hp|]. split; [reflexivity|].
  exact (countdown_never_shows_zero defaultSettings s HF Hdown Hs Hp).
Defined.
